(** * IoT cloud server (server.js): relay hub between devices and dashboards

    A shallow embedding of the request handlers of [server.js]: the control
    endpoint [POST /api/devices/:deviceId/control], the WebSocket
    ['connection'] handler with the ['message'] and ['close'] listeners it
    installs, and [broadcastToWebClients].  The module-level variables
    ([iotDevices], [webClients], [deviceStates], [registeredDevices]) are the
    fields of one [Server] record that every handler transforms; the [ws]
    objects live in a heap of sockets addressed by handle. *)

From Stdlib Require Import QArith Qcanon Ascii.
From stdpp Require Import gmap strings list fin_maps pretty.

Set Warnings "-register-all,-clear-no-such-hyp".
Close Scope Qc_scope.
Close Scope Q_scope.
Open Scope string_scope.

(** ** JavaScript values and ordinary objects *)

Module JS.

(** Values that [JSON.parse] produces and [JSON.stringify] serialises.
    [undefined] is [None] in an [option value].  Numbers only flow through
    the server (no arithmetic), so a canonical rational stands for them. *)
Inductive value : Type :=
  | JNull
  | JBool (b : bool)
  | JNum (q : Qc)
  | JStr (s : string)
  | JArr (elems : list value)
  | JObj (props : gmap string value).

Definition int (z : Z) : value := JNum (Q2Qc (inject_Z z)).
Definition dec (n : Z) (d : positive) : value := JNum (Q2Qc (n # d)).

(** The [[Prototype]] slot of [deviceStates].  It starts as
    [Object.prototype]; the inherited [__proto__] setter can replace it by
    a parsed object or array (whose own prototype chain ends in
    [Object.prototype]) or by [null]. *)
Inductive proto : Type :=
  | ObjectPrototype
  | ProtoNull
  | ProtoParsed (props : gmap string value)
  | ProtoArray (elems : list value).

(** An ordinary object.  [own] holds the own properties whose value is not
    [undefined], which is what [JSON.stringify] prints; [voided] names the
    own properties whose value is [undefined]. *)
Record object : Type := Object {
  own : gmap string value;
  voided : gset string;
  prototype : proto
}.

(** Own enumerable string-keyed properties of a value used as the source of
    [Object.assign]: [undefined], [null], numbers and booleans have none, a
    string has one per index, an array one per element. *)
Definition indexed {A} (f : A -> value) (l : list A) : gmap string value :=
  list_to_map (imap (fun i x => (pretty i, f x)) l).

(** A string is held as its UTF-8 bytes, a lone surrogate in the
    three-byte form.  [codeUnit n] is the string made of the one UTF-16
    code unit [n]. *)
Definition codeUnit (n : N) : string :=
  if (n <? 128)%N then String (ascii_of_N n) EmptyString
  else if (n <? 2048)%N then
    String (ascii_of_N (192 + n / 64))
      (String (ascii_of_N (128 + n mod 64)) EmptyString)
  else
    String (ascii_of_N (224 + n / 4096))
      (String (ascii_of_N (128 + (n / 64) mod 64))
         (String (ascii_of_N (128 + n mod 64)) EmptyString)).

(** The value of the code point written in four bytes. *)
Definition astral (a b c d : ascii) : N :=
  ((N_of_ascii a mod 8) * 262144 + (N_of_ascii b mod 64) * 4096
   + (N_of_ascii c mod 64) * 64 + N_of_ascii d mod 64)%N.

(** The UTF-16 code units of a string, each as a string of its own: a code
    point of the basic plane (one to three bytes) is one unit, a code point
    above it (four bytes) is a pair of surrogates.  A sequence cut short
    (which no JavaScript string has) is left as it is. *)
Fixpoint codeUnits (l : list ascii) : list string :=
  match l with
  | [] => []
  | a :: rest =>
      if (N_of_ascii a <? 192)%N then String a EmptyString :: codeUnits rest
      else if (N_of_ascii a <? 224)%N then
        match rest with
        | b :: rest => String a (String b EmptyString) :: codeUnits rest
        | [] => [String a EmptyString]
        end
      else if (N_of_ascii a <? 240)%N then
        match rest with
        | b :: c :: rest =>
            String a (String b (String c EmptyString)) :: codeUnits rest
        | _ => [String.string_of_list_ascii l]
        end
      else
        match rest with
        | b :: c :: d :: rest =>
            let n := (astral a b c d - 65536)%N in
            codeUnit (55296 + n / 1024) :: codeUnit (56320 + n mod 1024)
            :: codeUnits rest
        | _ => [String.string_of_list_ascii l]
        end
  end.

Definition chars (s : string) : list string :=
  codeUnits (String.list_ascii_of_string s).

Definition own_enumerable (src : option value) : gmap string value :=
  match src with
  | Some (JObj props) => props
  | Some (JArr elems) => indexed id elems
  | Some (JStr s) => indexed JStr (chars s)
  | _ => ∅
  end.

(** Is [k] an own property of [o]? *)
Definition has_own (o : object) (k : string) : bool :=
  bool_decide (is_Some (own o !! k)) || bool_decide (k ∈ voided o).

(** The names of the own properties. *)
Definition ownKeys (o : object) : gset string := dom (own o) ∪ voided o.

(** The own data property [k] of [o] gets the value [v], [None] being
    [undefined]. *)
Definition define (o : object) (k : string) (v : option value) : object :=
  match v with
  | Some x =>
      {| own := <[k := x]> (own o); voided := voided o ∖ {[k]};
         prototype := prototype o |}
  | None =>
      {| own := delete k (own o); voided := {[k]} ∪ voided o;
         prototype := prototype o |}
  end.

(** The setter of the accessor [Object.prototype.__proto__]: an object or
    [null] becomes the new prototype, any other value is ignored. *)
Definition set_prototype (o : object) (v : option value) : object :=
  match v with
  | Some (JObj props) =>
      {| own := own o; voided := voided o; prototype := ProtoParsed props |}
  | Some (JArr elems) =>
      {| own := own o; voided := voided o; prototype := ProtoArray elems |}
  | Some JNull =>
      {| own := own o; voided := voided o; prototype := ProtoNull |}
  | _ => o
  end.

(** Does the lookup of [__proto__] along the prototype chain reach the
    accessor of [Object.prototype]?  A parsed object in the chain may carry
    [__proto__] as a data property, and a [null] prototype ends the chain
    before it. *)
Definition reaches_proto_accessor (o : object) : bool :=
  if has_own o "__proto__" then false
  else
    match prototype o with
    | ObjectPrototype | ProtoArray _ => true
    | ProtoNull => false
    | ProtoParsed props => bool_decide (props !! "__proto__" = None)
    end.

(** [o[k] = v], with [None] for [undefined]: every property of the chain
    other than the [__proto__] accessor is a writable data property, so the
    assignment creates or overwrites an own property. *)
Definition set (o : object) (k : string) (v : option value) : object :=
  if bool_decide (k = "__proto__") && reaches_proto_accessor o
  then set_prototype o v
  else define o k v.

(** [Object.assign(o, src)] *)
Definition assign (o : object) (src : option value) : object :=
  map_fold (fun k v acc => set acc k (Some v)) o (own_enumerable src).

(** [o.hasOwnProperty]: the value found for the name [hasOwnProperty],
    own property first, then the chain.  [true] when the lookup ends at
    the built-in function of [Object.prototype]. *)
Definition resolves_hasOwnProperty (o : object) : bool :=
  if has_own o "hasOwnProperty" then false
  else
    match prototype o with
    | ObjectPrototype | ProtoArray _ => true
    | ProtoNull => false
    | ProtoParsed props => bool_decide (props !! "hasOwnProperty" = None)
    end.

(** [o.hasOwnProperty(k)]; [None] is the [TypeError] raised when what the
    lookup finds is not callable. *)
Definition hasOwnProperty (o : object) (k : string) : option bool :=
  if resolves_hasOwnProperty o then Some (has_own o k) else None.

(** [v.k] for a parsed value [v] and a name [k] that no built-in prototype
    carries ([type], [data]): [None] is the [TypeError] on [null],
    [Some None] is [undefined]. *)
Definition member (v : value) (k : string) : option (option value) :=
  match v with
  | JNull => None
  | JObj props => Some (props !! k)
  | _ => Some None
  end.

(** An object literal with an optional member, as [JSON.stringify] prints
    it: a member whose value is [undefined] is left out. *)
Definition with_member (k : string) (v : option value)
    (props : gmap string value) : gmap string value :=
  match v with
  | Some x => <[k := x]> props
  | None => props
  end.

(** Does the conversion of [v] to a string, as a template literal performs
    it, throw?  A parsed object is converted by the method found under
    [toString], then by the one under [valueOf]: an own property named
    [toString] holds a parsed value, which is no function, and the
    [valueOf] found after it is either such a value too or the built-in,
    which returns the object itself, so the conversion ends in a
    [TypeError]; without that own property the built-in [toString]
    answers.  An array joins the conversions of its elements other than
    [null]; the other values always convert. *)
Fixpoint toString_throws (v : value) : bool :=
  match v with
  | JObj props => bool_decide (is_Some (props !! "toString"))
  | JArr elems => existsb toString_throws elems
  | _ => false
  end.

End JS.

Import JS.

(** ** WebSocket connections *)

Module WebSocket.

Inductive ReadyState : Type := CONNECTING | OPEN | CLOSING | CLOSED.

#[global] Instance ReadyState_eq_dec : EqDecision ReadyState.
Proof. solve_decision. Defined.

(** The listeners that the ['connection'] handler attaches to a [ws]
    object; each closure captures the identifier it was created with. *)
Inductive Listeners : Type :=
  | NoListeners
  | DeviceListeners (deviceId : string)
  | WebListeners (clientId : string).

(** A [ws] object as the server sees it: its [readyState], the frames
    passed to [send] (oldest first, before [JSON.stringify]), the
    arguments of a call to [close], and the attached listeners. *)
Record Socket : Type := {
  readyState : ReadyState;
  sent : list value;
  closeCall : option (Z * string);
  listeners : Listeners
}.

Definition accepted (l : Listeners) : Socket :=
  {| readyState := OPEN; sent := []; closeCall := None; listeners := l |}.

Definition push (frame : value) (sk : Socket) : Socket :=
  {| readyState := readyState sk; sent := sent sk ++ [frame];
     closeCall := closeCall sk; listeners := listeners sk |}.

Definition with_readyState (rs : ReadyState) (sk : Socket) : Socket :=
  {| readyState := rs; sent := sent sk;
     closeCall := closeCall sk; listeners := listeners sk |}.

(** [ws.close(code, reason)] starts the closing handshake. *)
Definition closing (code : Z) (reason : string) (sk : Socket) : Socket :=
  {| readyState := CLOSING; sent := sent sk;
     closeCall := Some (code, reason); listeners := listeners sk |}.

End WebSocket.

Import WebSocket.

(** ** Server state *)

Definition handle := nat.
Definition Time := string.

(** An element of [registeredDevices]. *)
Record DeviceRecord : Type := {
  id : string;
  name : string;
  type : string;
  location : string;
  online : bool;
  lastSeen : option Time
}.

(** Lines written by [console.log] and [console.error]. *)
Inductive LogLine : Type :=
  | LogWebCommand (deviceId command : string) (v : option value)
  | LogDeviceConnected (deviceId : string)
  | LogDeviceData (deviceId : string) (data : value)
  | LogMessageError
  | LogDeviceDisconnected (deviceId : string)
  | LogWebConnected (clientId : string)
  | LogWebDisconnected (clientId : string).

Record Server : Type := {
  iotDevices : gmap string handle;
  webClients : gmap string handle;
  deviceStates : object;
  registeredDevices : list DeviceRecord;
  sockets : gmap handle Socket;
  console : list LogLine
}.

(** The module-level initialisers; [t0] is the clock reading of
    [new Date().toISOString()] at start-up. *)
Definition initialStates (t0 : Time) : object :=
  {| own := <["temperature" := dec 49 2]> (<["humidity" := int 68]>
            (<["led" := JBool false]> (<["pump" := JBool false]>
            (<["fanSpeed" := int 45]> (<["power" := int 156]>
            (<["lastUpdate" := JStr t0]> ∅))))));
     voided := ∅;
     prototype := ObjectPrototype |}.

Definition initialDevices : list DeviceRecord :=
  [ {| id := "device_001"; name := "Kitchen Sensor"; type := "sensor";
       location := "Kitchen"; online := false; lastSeen := None |};
    {| id := "device_002"; name := "LED Controller"; type := "actuator";
       location := "Living Room"; online := false; lastSeen := None |} ].

Definition initial (t0 : Time) : Server :=
  {| iotDevices := ∅; webClients := ∅;
     deviceStates := initialStates t0;
     registeredDevices := initialDevices;
     sockets := ∅; console := [] |}.

(** Field updates of the server record. *)
Definition with_iotDevices (m : gmap string handle) (s : Server) : Server :=
  {| iotDevices := m; webClients := webClients s;
     deviceStates := deviceStates s;
     registeredDevices := registeredDevices s;
     sockets := sockets s; console := console s |}.

Definition with_webClients (m : gmap string handle) (s : Server) : Server :=
  {| iotDevices := iotDevices s; webClients := m;
     deviceStates := deviceStates s;
     registeredDevices := registeredDevices s;
     sockets := sockets s; console := console s |}.

Definition with_deviceStates (o : object) (s : Server) : Server :=
  {| iotDevices := iotDevices s; webClients := webClients s;
     deviceStates := o;
     registeredDevices := registeredDevices s;
     sockets := sockets s; console := console s |}.

Definition with_registeredDevices (l : list DeviceRecord) (s : Server) : Server :=
  {| iotDevices := iotDevices s; webClients := webClients s;
     deviceStates := deviceStates s;
     registeredDevices := l;
     sockets := sockets s; console := console s |}.

Definition with_sockets (m : gmap handle Socket) (s : Server) : Server :=
  {| iotDevices := iotDevices s; webClients := webClients s;
     deviceStates := deviceStates s;
     registeredDevices := registeredDevices s;
     sockets := m; console := console s |}.

Definition log (l : LogLine) (s : Server) : Server :=
  {| iotDevices := iotDevices s; webClients := webClients s;
     deviceStates := deviceStates s;
     registeredDevices := registeredDevices s;
     sockets := sockets s; console := console s ++ [l] |}.

(** [ws.readyState === WebSocket.OPEN] *)
Definition isOpen (ws : handle) (socks : gmap handle Socket) : bool :=
  match socks !! ws with
  | Some sk => bool_decide (readyState sk = OPEN)
  | None => false
  end.

(** [ws.send(JSON.stringify(frame))] *)
Definition send (ws : handle) (frame : value) (s : Server) : Server :=
  with_sockets (alter (push frame) ws (sockets s)) s.

(** ** Serialised views *)

Definition optTime (t : option Time) : value :=
  match t with Some x => JStr x | None => JNull end.

Definition deviceJson (d : DeviceRecord) : value :=
  JObj (<["id" := JStr (id d)]> (<["name" := JStr (name d)]>
       (<["type" := JStr (type d)]> (<["location" := JStr (location d)]>
       (<["online" := JBool (online d)]>
       (<["lastSeen" := optTime (lastSeen d)]> ∅)))))).

(** [GET /api/sensors]: the body is [JSON.stringify(deviceStates)], the own
    properties of the object whose value is not [undefined]. *)
Definition getSnapshot (s : Server) : gmap string value :=
  own (deviceStates s).

(** [GET /api/devices] *)
Definition listDevices (s : Server) : value :=
  JArr (deviceJson <$> registeredDevices s).

(** ** broadcastToWebClients *)

Definition sendIfOpen (frame : value) (client : handle)
    (socks : gmap handle Socket) : gmap handle Socket :=
  if isOpen client socks then alter (push frame) client socks else socks.

Definition broadcastToWebClients (data : value) (s : Server) : Server :=
  with_sockets
    (map_fold (fun _ client socks => sendIfOpen data client socks)
              (sockets s) (webClients s)) s.

(** ** Device registry updates

    [registeredDevices.find(d => d.id === deviceId)] followed by the
    assignments to [online] and [lastSeen] of the record found: the first
    record with that [id] is updated in place, none if there is no match. *)
Fixpoint find (deviceId : string) (l : list DeviceRecord) : option DeviceRecord :=
  match l with
  | [] => None
  | d :: rest =>
      if bool_decide (id d = deviceId) then Some d else find deviceId rest
  end.

Definition setStatus (on : bool) (t : Time) (d : DeviceRecord) : DeviceRecord :=
  {| id := id d; name := name d; type := type d; location := location d;
     online := on; lastSeen := Some t |}.

Fixpoint updateStatus (deviceId : string) (on : bool) (t : Time)
    (l : list DeviceRecord) : list DeviceRecord :=
  match l with
  | [] => []
  | d :: rest =>
      if bool_decide (id d = deviceId)
      then setStatus on t d :: rest
      else d :: updateStatus deviceId on t rest
  end.

(** ** POST /api/devices/:deviceId/control *)

(** What the route handler answers: [res.status(..).json(..)], or nothing
    when an exception leaves the handler. *)
Inductive Response : Type :=
  | Json (status : Z) (body : value)
  | Uncaught.

Definition commandMessage (command : string) (v : option value) (t : Time) : value :=
  JObj (<["type" := JStr "command"]> (<["command" := JStr command]>
       (with_member "value" v (<["timestamp" := JStr t]> ∅)))).

Definition stateUpdate (deviceId command : string) (v : option value) (t : Time) : value :=
  JObj (<["type" := JStr "stateUpdate"]> (<["deviceId" := JStr deviceId]>
       (<["command" := JStr command]> (with_member "value" v
       (<["timestamp" := JStr t]> ∅))))).

Definition commandSent (deviceId command : string) (v : option value) : value :=
  JObj (<["success" := JBool true]>
       (<["message" := JStr ("Command sent to " +:+ deviceId)]>
       (<["command" := JStr command]> (with_member "value" v ∅)))).

Definition notConnected (deviceId : string) : value :=
  JObj (<["success" := JBool false]>
       (<["error" := JStr ("Device " +:+ deviceId +:+ " is not connected")]> ∅)).

(** [`${value}`] in the line the handler logs first: [undefined] and every
    value but the ones of [toString_throws] convert. *)
Definition converts (v : option value) : bool :=
  match v with
  | Some x => negb (toString_throws x)
  | None => true
  end.

(** The handler for a body with a string [command] and the member [value],
    [None] when the body has none; [t1] and [t2] are the two readings of
    the clock it takes.  The template literal of the first line converts
    [value] to a string before anything else happens. *)
Definition control (deviceId command : string) (v : option value) (t1 t2 : Time)
    (s : Server) : Response * Server :=
  if negb (converts v) then (Uncaught, s) else
  let s := log (LogWebCommand deviceId command v) s in
  match iotDevices s !! deviceId with
  | Some deviceWs =>
      if isOpen deviceWs (sockets s) then
        let s := send deviceWs (commandMessage command v t1) s in
        match hasOwnProperty (deviceStates s) command with
        | None => (Uncaught, s)
        | Some known =>
            let s := if known
                     then with_deviceStates (JS.set (deviceStates s) command v) s
                     else s in
            let s := broadcastToWebClients (stateUpdate deviceId command v t2) s in
            (Json 200 (commandSent deviceId command v), s)
        end
      else (Json 404 (notConnected deviceId), s)
  | None => (Json 404 (notConnected deviceId), s)
  end.

(** ** The WebSocket ['connection'] handler and its listeners *)

Definition config (deviceId : string) : value :=
  JObj (<["type" := JStr "config"]>
       (<["message" := JStr "Connected to cloud server"]>
       (<["deviceId" := JStr deviceId]> ∅))).

Definition initialData (s : Server) (t : Time) : value :=
  JObj (<["type" := JStr "initialData"]> (<["devices" := listDevices s]>
       (<["sensors" := JObj (getSnapshot s)]>
       (<["timestamp" := JStr t]> ∅)))).

Definition sensorUpdate (deviceId : string) (data : option value) (t : Time) : value :=
  JObj (<["type" := JStr "sensorUpdate"]> (<["deviceId" := JStr deviceId]>
       (with_member "data" data (<["timestamp" := JStr t]> ∅)))).

Definition deviceDisconnected (deviceId : string) (t : Time) : value :=
  JObj (<["type" := JStr "deviceDisconnected"]>
       (<["deviceId" := JStr deviceId]> (<["timestamp" := JStr t]> ∅))).

(** [ws.on('message', ..)] and [ws.on('close', ..)] *)
Definition attach (ws : handle) (l : Listeners) (s : Server) : Server :=
  with_sockets
    (alter (fun sk => {| readyState := readyState sk; sent := sent sk;
                         closeCall := closeCall sk; listeners := l |})
           ws (sockets s)) s.

(** A non-empty string is the only truthy value of [searchParams.get]. *)
Definition truthy (p : option string) : bool :=
  match p with
  | Some x => negb (bool_decide (x = ""))
  | None => false
  end.

Definition acceptDevice (ws : handle) (deviceId : string) (now : Time)
    (s : Server) : Server :=
  let s := log (LogDeviceConnected deviceId) s in
  let s := with_iotDevices (<[deviceId := ws]> (iotDevices s)) s in
  let s := with_registeredDevices
             (updateStatus deviceId true now (registeredDevices s)) s in
  let s := send ws (config deviceId) s in
  attach ws (DeviceListeners deviceId) s.

Definition acceptWeb (ws : handle) (clientId : string) (now : Time)
    (s : Server) : Server :=
  let s := log (LogWebConnected clientId) s in
  let s := with_webClients (<[clientId := ws]> (webClients s)) s in
  let s := send ws (initialData s now) s in
  attach ws (WebListeners clientId) s.

Definition reject (ws : handle) (s : Server) : Server :=
  with_sockets (alter (closing 1008 "Invalid client type") ws (sockets s)) s.

(** [clientType] and [deviceId] are the query parameters [type] and
    [deviceId] of the upgrade request ([None] when absent); [clientId] is the
    outcome of [Math.random().toString(36).substring(7)] and [now] the clock
    reading. *)
Definition onConnection (ws : handle) (clientType deviceId : option string)
    (clientId : string) (now : Time) (s : Server) : Server :=
  if bool_decide (clientType = Some "device") && truthy deviceId
  then acceptDevice ws (default "" deviceId) now s
  else if bool_decide (clientType = Some "web")
  then acceptWeb ws clientId now s
  else reject ws s.

(** [Object.assign(deviceStates, fields); deviceStates.lastUpdate = t] *)
Definition merge (fields : option value) (t : Time) (o : object) : object :=
  JS.set (assign o fields) "lastUpdate" (Some (JStr t)).

(** [tag === 'sensorData'] *)
Definition isSensorData (tag : option value) : bool :=
  match tag with
  | Some (JStr x) => bool_decide (x = "sensorData")
  | _ => false
  end.

(** The ['message'] listener of a device.  [message] is the outcome of
    [JSON.parse(message)], [None] when it throws; everything thrown inside
    the [try] block ends in the [catch] clause. *)
Definition onMessage (deviceId : string) (message : option value)
    (t1 t2 : Time) (s : Server) : Server :=
  match message with
  | None => log LogMessageError s
  | Some data =>
      let s := log (LogDeviceData deviceId data) s in
      match member data "type" with
      | None => log LogMessageError s
      | Some tag =>
          if isSensorData tag then
            match member data "data" with
            | None => log LogMessageError s
            | Some fields =>
                let s := with_deviceStates (merge fields t1 (deviceStates s)) s in
                broadcastToWebClients (sensorUpdate deviceId fields t2) s
            end
          else s
      end
  end.

(** The ['close'] listener of a device. *)
Definition onDeviceClose (deviceId : string) (t1 t2 : Time) (s : Server) : Server :=
  let s := log (LogDeviceDisconnected deviceId) s in
  let s := with_iotDevices (delete deviceId (iotDevices s)) s in
  let s := with_registeredDevices
             (updateStatus deviceId false t1 (registeredDevices s)) s in
  broadcastToWebClients (deviceDisconnected deviceId t2) s.

(** The ['close'] listener of a dashboard. *)
Definition onWebClose (clientId : string) (s : Server) : Server :=
  let s := log (LogWebDisconnected clientId) s in
  with_webClients (delete clientId (webClients s)) s.

(** ** Events of the event loop *)

Inductive Event : Type :=
  | Connection (ws : handle) (clientType deviceId : option string)
               (clientId : string) (now : Time)
  | Message (ws : handle) (message : option value) (t1 t2 : Time)
  | Closing (ws : handle)
  | Close (ws : handle) (t1 t2 : Time)
  | Control (deviceId command : string) (v : option value) (t1 t2 : Time).

Definition listenersOf (ws : handle) (s : Server) : Listeners :=
  match sockets s !! ws with
  | Some sk => listeners sk
  | None => NoListeners
  end.

Definition readyStateOf (ws : handle) (s : Server) : option ReadyState :=
  readyState <$> sockets s !! ws.

Definition sentTo (ws : handle) (s : Server) : list value :=
  match sockets s !! ws with
  | Some sk => sent sk
  | None => []
  end.

(** One callback of the event loop, run to completion.  A connection event
    brings a new, open [ws] object; [Closing] is the transport leaving the
    [OPEN] state before ['close'] is emitted; [Close] is the emission of
    ['close'], with [readyState] already [CLOSED]. *)
Definition step (ev : Event) (s : Server) : Server :=
  match ev with
  | Connection ws clientType deviceId clientId now =>
      onConnection ws clientType deviceId clientId now
        (with_sockets (<[ws := accepted NoListeners]> (sockets s)) s)
  | Message ws message t1 t2 =>
      match listenersOf ws s with
      | DeviceListeners deviceId => onMessage deviceId message t1 t2 s
      | _ => s
      end
  | Closing ws =>
      with_sockets (alter (with_readyState CLOSING) ws (sockets s)) s
  | Close ws t1 t2 =>
      let s' := with_sockets (alter (with_readyState CLOSED) ws (sockets s)) s in
      match listenersOf ws s with
      | DeviceListeners deviceId => onDeviceClose deviceId t1 t2 s'
      | WebListeners clientId => onWebClose clientId s'
      | NoListeners => s'
      end
  | Control deviceId command v t1 t2 =>
      (control deviceId command v t1 t2 s).2
  end.

(** When the event can occur: a connection brings a [ws] object that did
    not exist before, frames arrive and ['close'] is emitted once on sockets
    that are not [CLOSED], and only an [OPEN] socket starts closing. *)
Definition enabled (ev : Event) (s : Server) : bool :=
  match ev with
  | Connection ws _ _ _ _ => bool_decide (sockets s !! ws = None)
  | Message ws _ _ _ | Close ws _ _ =>
      match readyStateOf ws s with
      | Some rs => negb (bool_decide (rs = CLOSED))
      | None => false
      end
  | Closing ws => bool_decide (readyStateOf ws s = Some OPEN)
  | Control _ _ _ _ _ => true
  end.

Fixpoint run (evs : list Event) (s : Server) : Server :=
  match evs with
  | [] => s
  | ev :: rest => run rest (step ev s)
  end.

Fixpoint admissible (evs : list Event) (s : Server) : bool :=
  match evs with
  | [] => true
  | ev :: rest => enabled ev s && admissible rest (step ev s)
  end.

(** States the server can be in after start-up. *)
Inductive reachable : Server -> Prop :=
  | reachable_initial t0 : reachable (initial t0)
  | reachable_step ev s :
      reachable s -> enabled ev s = true -> reachable (step ev s).

(** ** Sequences of merges into the shared state *)

(** [mergeAll ms o]: the merges [ms], oldest first, each a field mapping
    with the clock reading of its merge, applied to [o]. *)
Definition mergeAll (ms : list (gmap string value * Time)) (o : object) : object :=
  foldl (fun acc m => merge (Some (JObj m.1)) m.2 acc) o ms.

(** The value most recently merged under the key [k], if any. *)
Fixpoint lastMerged (k : string) (ms : list (gmap string value * Time)) : option value :=
  match ms with
  | [] => None
  | m :: rest =>
      match lastMerged k rest with
      | Some v => Some v
      | None => m.1 !! k
      end
  end.

(** The keys of all merged mappings. *)
Definition mergedKeys (ms : list (gmap string value * Time)) : gset string :=
  foldr (fun m acc => dom m.1 ∪ acc) ∅ ms.

(** The number of entries of a registry that hold the connection [ws]. *)
Definition entriesOf (ws : handle) (clients : gmap string handle) : nat :=
  length (filter (fun e => e.2 = ws) (map_to_list clients)).

(** [n] calls of [send] with the same frame on one socket. *)
Definition pushes (n : nat) (frame : value) (sk : Socket) : Socket :=
  Nat.iter n (push frame) sk.

(** Every registry entry holds a connection whose listeners were attached
    for that very identifier. *)
Definition registriesConsistent (s : Server) : Prop :=
  (forall deviceId ws,
      iotDevices s !! deviceId = Some ws ->
      listenersOf ws s = DeviceListeners deviceId) /\
  (forall clientId ws,
      webClients s !! clientId = Some ws ->
      listenersOf ws s = WebListeners clientId).

(** The keys that the initialiser of [deviceStates] declares. *)
Definition initialKeys : list string :=
  ["temperature"; "humidity"; "led"; "pump"; "fanSpeed"; "power"; "lastUpdate"].

(** Does the event bind or unbind [deviceId] in [iotDevices]?  A device
    connection with that identifier binds it; the ['close'] listener of any
    socket accepted under that identifier unbinds it. *)
Definition rebinds (deviceId : string) (ev : Event) (s : Server) : bool :=
  match ev with
  | Connection _ clientType did _ _ =>
      bool_decide (clientType = Some "device") && bool_decide (did = Some deviceId)
  | Close ws _ _ =>
      match listenersOf ws s with
      | DeviceListeners d => bool_decide (d = deviceId)
      | _ => false
      end
  | _ => false
  end.

Fixpoint undisturbed (deviceId : string) (evs : list Event) (s : Server) : bool :=
  match evs with
  | [] => true
  | ev :: rest =>
      negb (rebinds deviceId ev s) && undisturbed deviceId rest (step ev s)
  end.

(** The frame [{type:"sensorData", data:{temperature:30}}]. *)
Definition temperature30 : value := JObj {["temperature" := int 30]}.

Definition temperatureFrame : value :=
  JObj (<["type" := JStr "sensorData"]> (<["data" := temperature30]> ∅)).

(** ** A concrete run

    The server starts, the kitchen sensor connects, then one dashboard. *)
Definition started : Server := initial "2024-05-01T10:00:00.000Z".

Definition kitchenConnects : Event :=
  Connection 0 (Some "device") (Some "device_001") "" "2024-05-01T10:00:01.000Z".

Definition dashboardConnects : Event :=
  Connection 1 (Some "web") None "k3x9q" "2024-05-01T10:00:02.000Z".

Definition serving : Server := run [kitchenConnects; dashboardConnects] started.

(** A sensor report whose field mapping has a field named [hasOwnProperty]. *)
Definition shadowingReport : Event :=
  Message 0
    (Some (JObj (<["type" := JStr "sensorData"]>
                (<["data" := JObj {["hasOwnProperty" := int 1]}]> ∅))))
    "2024-05-01T10:00:03.000Z" "2024-05-01T10:00:03.001Z".

Definition ledOn : Event :=
  Control "device_001" "led" (Some (JBool true))
    "2024-05-01T10:00:04.000Z" "2024-05-01T10:00:04.001Z".

(** The parsed value [{"toString": 1}], which no template literal can
    convert to a string. *)
Definition unprintable : value := JObj {["toString" := int 1]}.


(** What the specification says of a sequence of merges [ms] applied to the
    shared state [o]: the snapshot contains the keys of [o] and every merged
    key, each key other than [lastUpdate] holds the value merged last (that
    of [o] if never merged), and [lastUpdate] is the clock reading of the
    last merge. *)
Definition mergesAccumulate (ms : list (gmap string value * Time))
    (o : object) : Prop :=
  let final := own (mergeAll ms o) in
  dom (own o) ∪ mergedKeys ms ⊆ dom final /\
  (forall k, k ≠ "lastUpdate" ->
     final !! k = match lastMerged k ms with
                  | Some v => Some v
                  | None => own o !! k
                  end) /\
  (forall m, last ms = Some m -> final !! "lastUpdate" = Some (JStr m.2)).

(** The kitchen sensor connects a second time while its first connection
    is still registered. *)
Definition kitchenReconnects : Event :=
  Connection 2 (Some "device") (Some "device_001") "" "2024-05-01T10:00:05.000Z".

Definition reconnected : Server := step kitchenReconnects serving.

(** Every command for [deviceId] issued in a later state sends its command
    frame to the connection [ws]. *)
Definition commandsReach (deviceId : string) (ws : handle) (s : Server) : Prop :=
  forall evs, admissible evs s = true ->
    forall command v t1 t2,
      sentTo ws (control deviceId command v t1 t2 (run evs s)).2
      = (sentTo ws (run evs s) ++ [commandMessage command v t1])%list.

(** ** The health endpoint and the broadcast to devices *)

(** [iotDevices.size] and [webClients.size] *)
Definition connectedDevices (s : Server) : nat := size (iotDevices s).
Definition connectedClients (s : Server) : nat := size (webClients s).

(** [GET /api/health] *)
Definition health (now : Time) (s : Server) : value :=
  JObj (<["status" := JStr "online"]> (<["timestamp" := JStr now]>
       (<["connectedDevices" := int (Z.of_nat (connectedDevices s))]>
       (<["connectedClients" := int (Z.of_nat (connectedClients s))]> ∅)))).

(** [broadcastToIotDevices]: the same loop over [iotDevices]. *)
Definition broadcastToIotDevices (data : value) (s : Server) : Server :=
  with_sockets
    (map_fold (fun _ device socks => sendIfOpen data device socks)
              (sockets s) (iotDevices s)) s.

(** The sockets on which ['close'] has not been emitted. *)
Definition liveSockets (s : Server) : gset handle :=
  dom (filter (fun e : handle * Socket => readyState e.2 ≠ CLOSED) (sockets s)).

(** The fields of a device record that no handler assigns. *)
Definition identity (d : DeviceRecord) : string * string * string * string :=
  (id d, name d, type d, location d).

(** The states of [deviceStates] in which [deviceStates.hasOwnProperty] is
    not the built-in whatever is merged later: the name is an own property,
    or the prototype is [null]. *)
Definition commandPathBroken (o : object) : Prop :=
  has_own o "hasOwnProperty" = true \/ prototype o = ProtoNull.

(** ** Properties of the object model *)

Section JSObjects.
Implicit Types (o : object) (k : string) (v : value) (w : option value).

Lemma own_define o k w k' :
  own (define o k w) !! k' = if decide (k = k') then w else own o !! k'.
Proof.
  destruct w; simpl.
  - by rewrite lookup_insert.
  - by rewrite lookup_delete.
Qed.

Lemma own_set_prototype o w : own (set_prototype o w) = own o.
Proof. by destruct w as [[]|]. Qed.

Lemma voided_set_prototype o w : voided (set_prototype o w) = voided o.
Proof. by destruct w as [[]|]. Qed.

Lemma has_own_true o k :
  has_own o k = true <-> k ∈ ownKeys o.
Proof.
  unfold has_own, ownKeys.
  rewrite orb_true_iff, !bool_decide_eq_true, elem_of_union, elem_of_dom.
  done.
Qed.

Lemma has_own_own o k : is_Some (own o !! k) -> has_own o k = true.
Proof.
  intros Hk. apply has_own_true, elem_of_union. left. by apply elem_of_dom.
Qed.

Lemma ownKeys_set_prototype o w : ownKeys (set_prototype o w) = ownKeys o.
Proof. unfold ownKeys. by rewrite own_set_prototype, voided_set_prototype. Qed.

Lemma ownKeys_define o k w : ownKeys (define o k w) = {[k]} ∪ ownKeys o.
Proof.
  unfold ownKeys. apply set_eq. intros x.
  destruct w; simpl.
  - rewrite dom_insert_L. destruct (decide (x = k)); set_solver.
  - rewrite dom_delete_L. destruct (decide (x = k)); set_solver.
Qed.

(** An assignment never removes an own property. *)
Lemma ownKeys_set o k w : ownKeys o ⊆ ownKeys (JS.set o k w).
Proof.
  unfold JS.set.
  destruct (bool_decide (k = "__proto__") && reaches_proto_accessor o).
  - by rewrite ownKeys_set_prototype.
  - rewrite ownKeys_define. set_solver.
Qed.

Lemma has_own_set o k w k' :
  has_own o k' = true -> has_own (JS.set o k w) k' = true.
Proof. rewrite !has_own_true. apply ownKeys_set. Qed.

(** The assignment to a name that is an own property keeps the names. *)
Lemma ownKeys_set_existing o k w :
  has_own o k = true -> ownKeys (JS.set o k w) = ownKeys o.
Proof.
  intros Hk. unfold JS.set.
  destruct (bool_decide (k = "__proto__") && reaches_proto_accessor o).
  - apply ownKeys_set_prototype.
  - rewrite ownKeys_define. apply has_own_true in Hk. set_solver.
Qed.

Lemma own_set_ne o k w k' :
  k' ≠ "__proto__" ->
  own (JS.set o k w) !! k' = if decide (k = k') then w else own o !! k'.
Proof.
  intros Hne. unfold JS.set.
  destruct (bool_decide (k = "__proto__") && reaches_proto_accessor o) eqn:E.
  - apply andb_true_iff in E as [E _]. apply bool_decide_eq_true in E.
    rewrite own_set_prototype. case_decide; congruence.
  - apply own_define.
Qed.

Lemma own_set_eq o k w :
  k ≠ "__proto__" -> own (JS.set o k w) !! k = w.
Proof. intros Hne. rewrite own_set_ne by done. by case_decide. Qed.

(** The assignment of a value other than [undefined] never removes a
    property from what [JSON.stringify] prints. *)
Lemma own_set_mono o k v k' :
  is_Some (own o !! k') -> is_Some (own (JS.set o k (Some v)) !! k').
Proof.
  intros Hk. unfold JS.set.
  destruct (bool_decide (k = "__proto__") && reaches_proto_accessor o).
  - by rewrite own_set_prototype.
  - rewrite own_define. case_decide; eauto.
Qed.

(** The only key whose assignment can fail to create an own property. *)
Lemma own_set_proto_accessor o w :
  reaches_proto_accessor o = true ->
  own (JS.set o "__proto__" w) = own o.
Proof.
  intros Hr. unfold JS.set. rewrite Hr. simpl. apply own_set_prototype.
Qed.

Lemma own_assign_ne o src k :
  k ≠ "__proto__" ->
  own (assign o src) !! k = (own_enumerable src ∪ own o) !! k.
Proof.
  intros Hne. unfold assign.
  apply (map_fold_weak_ind
           (fun r m => own r !! k = (m ∪ own o) !! k)).
  - by rewrite (left_id_L ∅ (∪)).
  - intros i x m r Hi IH. rewrite own_set_ne by done.
    rewrite lookup_union, lookup_insert. case_decide as Hik.
    + by destruct (own o !! k).
    + rewrite IH, lookup_union. done.
Qed.

Lemma own_assign_mono o src k :
  is_Some (own o !! k) -> is_Some (own (assign o src) !! k).
Proof.
  intros Hk. unfold assign.
  apply (map_fold_weak_ind (fun r _ => is_Some (own r !! k))); [done |].
  intros i x m r _ IH. by apply own_set_mono.
Qed.

Lemma ownKeys_assign o src : ownKeys o ⊆ ownKeys (assign o src).
Proof.
  unfold assign.
  apply (map_fold_weak_ind (fun r _ => ownKeys o ⊆ ownKeys r)); [done |].
  intros i x m r _ IH. etrans; [exact IH | apply ownKeys_set].
Qed.

Lemma own_merge_lastUpdate o src t :
  own (merge src t o) !! "lastUpdate" = Some (JStr t).
Proof. unfold merge. by apply own_set_eq. Qed.

Lemma own_merge_ne o src t k :
  k ≠ "__proto__" -> k ≠ "lastUpdate" ->
  own (merge src t o) !! k = (own_enumerable src ∪ own o) !! k.
Proof.
  intros H1 H2. unfold merge. rewrite own_set_ne by done.
  case_decide; [congruence |]. by apply own_assign_ne.
Qed.

Lemma own_merge_mono o src t k :
  is_Some (own o !! k) -> is_Some (own (merge src t o) !! k).
Proof. intros Hk. unfold merge. by apply own_set_mono, own_assign_mono. Qed.

Lemma ownKeys_merge o src t : ownKeys o ⊆ ownKeys (merge src t o).
Proof.
  unfold merge. etrans; [apply (ownKeys_assign o src) | apply ownKeys_set].
Qed.

(** A character of the basic plane is one code unit, whatever the number
    of its bytes; a character above it is a pair of surrogates. *)
Lemma chars_basic_plane : chars "añ€" = ["a"; "ñ"; "€"].
Proof. reflexivity. Qed.

Lemma chars_surrogate_pair : chars "😀" = [codeUnit 55357; codeUnit 56832].
Proof. reflexivity. Qed.

Lemma hasOwnProperty_Some o k b :
  hasOwnProperty o k = Some b ->
  resolves_hasOwnProperty o = true /\ b = has_own o k.
Proof.
  unfold hasOwnProperty. destruct (resolves_hasOwnProperty o); naive_solver.
Qed.

Lemma hasOwnProperty_shadowed o k v :
  own o !! "hasOwnProperty" = Some v -> hasOwnProperty o k = None.
Proof.
  intros Hv. unfold hasOwnProperty, resolves_hasOwnProperty.
  by rewrite has_own_own.
Qed.

End JSObjects.

(** ** Properties of sockets and of the broadcast *)

Section Broadcast.
Implicit Types (socks : gmap handle Socket) (clients : gmap string handle).
Implicit Types (sk : Socket) (h ws : handle) (data frame : value).

Lemma readyState_pushes n frame sk :
  readyState (pushes n frame sk) = readyState sk.
Proof. induction n as [|n IH]; [done |]. exact IH. Qed.

Lemma listeners_pushes n frame sk :
  listeners (pushes n frame sk) = listeners sk.
Proof. induction n as [|n IH]; [done |]. exact IH. Qed.

Lemma closeCall_pushes n frame sk :
  closeCall (pushes n frame sk) = closeCall sk.
Proof. induction n as [|n IH]; [done |]. exact IH. Qed.

Lemma sent_pushes n frame sk :
  sent (pushes n frame sk) = (sent sk ++ replicate n frame)%list.
Proof.
  induction n as [|n IH].
  - simpl. by rewrite app_nil_r.
  - change (pushes (S n) frame sk) with (push frame (pushes n frame sk)).
    unfold push at 1; simpl. rewrite IH, <- app_assoc. f_equal.
    change [frame] with (replicate 1 frame). rewrite <- replicate_add.
    by replace (n + 1) with (S n) by lia.
Qed.

Lemma isOpen_alter_push frame h ws socks :
  isOpen ws (alter (push frame) h socks) = isOpen ws socks.
Proof.
  unfold isOpen. rewrite lookup_alter. case_decide; [subst |]; [|done].
  by destruct (socks !! ws).
Qed.

(** The loop of [broadcastToWebClients] over the entries of the registry,
    seen from one socket. *)
Lemma fold_sendIfOpen_lookup data (l : list (string * handle)) socks h :
  foldr (uncurry (fun _ client acc => sendIfOpen data client acc)) socks l !! h
  = (if isOpen h socks
     then pushes (length (filter (fun e => e.2 = h) l)) data
     else fun sk => sk) <$> socks !! h.
Proof.
  induction l as [|[c x] l IH].
  - simpl. destruct (isOpen h socks), (socks !! h); done.
  - cbn [foldr uncurry]. set (r := foldr _ socks l) in *.
    assert (Hopen : isOpen x r = isOpen x socks).
    { clear IH. subst r. induction l as [|[c' x'] l IHl]; simpl; [done |].
      unfold sendIfOpen at 1. case_match; [|done].
      by rewrite isOpen_alter_push. }
    unfold sendIfOpen. rewrite Hopen.
    destruct (decide (x = h)) as [->|Hne].
    + rewrite filter_cons_True by done. simpl.
      destruct (isOpen h socks) eqn:Ho.
      * rewrite lookup_alter_eq, IH. by destruct (socks !! h).
      * exact IH.
    + rewrite filter_cons_False by done.
      destruct (isOpen x socks); [rewrite lookup_alter_ne by done|]; apply IH.
Qed.

Lemma sockets_broadcast data s h :
  sockets (broadcastToWebClients data s) !! h
  = (if isOpen h (sockets s)
     then pushes (entriesOf h (webClients s)) data
     else fun sk => sk) <$> sockets s !! h.
Proof.
  unfold broadcastToWebClients; simpl.
  rewrite map_fold_foldr. apply fold_sendIfOpen_lookup.
Qed.

Lemma entriesOf_none h clients :
  (forall c, clients !! c ≠ Some h) -> entriesOf h clients = 0.
Proof.
  intros Hno. unfold entriesOf.
  destruct (filter _ _) as [|[c x] l] eqn:E; [done |].
  assert (Hin : (c, x) ∈ filter (fun e : string * handle => e.2 = h)
                                 (map_to_list clients)).
  { rewrite E. left. }
  apply list_elem_of_filter in Hin as [Hx Hin]. simpl in Hx. subst x.
  apply elem_of_map_to_list in Hin. by destruct (Hno c).
Qed.

Lemma entriesOf_one h clients c :
  clients !! c = Some h ->
  (forall c', clients !! c' = Some h -> c' = c) ->
  entriesOf h clients = 1.
Proof.
  intros Hc Huniq. unfold entriesOf.
  set (l := filter _ _).
  assert (Hall : forall e, e ∈ l <-> e = (c, h)).
  { intros [c' x]. unfold l. rewrite list_elem_of_filter, elem_of_map_to_list.
    simpl. split.
    - intros [-> Hc']. by rewrite (Huniq c' Hc').
    - intros [= -> ->]. done. }
  assert (Hnd : NoDup l) by (apply NoDup_filter, NoDup_map_to_list).
  destruct l as [|e1 [|e2 l']].
  - exfalso. by apply (not_elem_of_nil (c, h)), Hall.
  - done.
  - exfalso. assert (e1 = (c, h)) as -> by (apply Hall; left).
    assert (e2 = (c, h)) as -> by (apply Hall; right; left).
    apply NoDup_cons in Hnd as [Hnotin _]. apply Hnotin. left.
Qed.

End Broadcast.

(** ** How the handlers change the socket heap *)

Section Sockets.
Implicit Types (s : Server) (h ws : handle) (data frame : value).

Lemma listenersOf_broadcast data s h :
  listenersOf h (broadcastToWebClients data s) = listenersOf h s.
Proof.
  unfold listenersOf. rewrite sockets_broadcast.
  destruct (sockets s !! h) as [sk|]; [|by destruct (isOpen _ _)].
  destruct (isOpen _ _); simpl; [apply listeners_pushes | done].
Qed.

Lemma readyStateOf_broadcast data s h :
  readyStateOf h (broadcastToWebClients data s) = readyStateOf h s.
Proof.
  unfold readyStateOf. rewrite sockets_broadcast.
  destruct (sockets s !! h) as [sk|]; [|by destruct (isOpen _ _)].
  destruct (isOpen _ _); simpl; [by rewrite readyState_pushes | done].
Qed.

Lemma sentTo_broadcast data s h :
  sentTo h (broadcastToWebClients data s)
  = (sentTo h s ++ if isOpen h (sockets s)
                   then replicate (entriesOf h (webClients s)) data
                   else [])%list.
Proof.
  unfold sentTo. rewrite sockets_broadcast. unfold isOpen.
  destruct (sockets s !! h) as [sk|]; simpl; [|done].
  case_bool_decide; simpl; [apply sent_pushes | by rewrite app_nil_r].
Qed.

Lemma isOpen_broadcast data s h :
  isOpen h (sockets (broadcastToWebClients data s)) = isOpen h (sockets s).
Proof.
  pose proof (readyStateOf_broadcast data s h) as Hr.
  unfold readyStateOf, isOpen in *.
  destruct (sockets (broadcastToWebClients data s) !! h),
           (sockets s !! h); simplify_eq/=; by try rewrite Hr.
Qed.

Lemma closeCall_broadcast data s h :
  closeCall <$> sockets (broadcastToWebClients data s) !! h
  = closeCall <$> sockets s !! h.
Proof.
  rewrite sockets_broadcast.
  destruct (sockets s !! h) as [sk|]; [|by destruct (isOpen _ _)].
  destruct (isOpen _ _); simpl; [by rewrite closeCall_pushes | done].
Qed.

Lemma listenersOf_send ws frame s h :
  listenersOf h (send ws frame s) = listenersOf h s.
Proof.
  unfold listenersOf, send; simpl. rewrite lookup_alter.
  case_decide; [subst |]; [|done]. by destruct (sockets s !! h).
Qed.

Lemma readyStateOf_send ws frame s h :
  readyStateOf h (send ws frame s) = readyStateOf h s.
Proof.
  unfold readyStateOf, send; simpl. rewrite lookup_alter.
  case_decide; [subst |]; [|done]. by destruct (sockets s !! h).
Qed.

Lemma sentTo_send ws frame s h :
  sentTo h (send ws frame s)
  = (sentTo h s ++ if bool_decide (ws = h /\ is_Some (sockets s !! h))
                   then [frame] else [])%list.
Proof.
  unfold sentTo, send; simpl. rewrite lookup_alter.
  case_decide as Hws; [subst |].
  - destruct (sockets s !! h) as [sk|] eqn:E; simpl.
    + rewrite bool_decide_eq_true_2; [done | eauto].
    + rewrite bool_decide_eq_false_2; [done |].
      intros [_ [? ?]]; congruence.
  - rewrite bool_decide_eq_false_2 by tauto.
    by rewrite app_nil_r.
Qed.

Lemma isOpen_send ws frame s h :
  isOpen h (sockets (send ws frame s)) = isOpen h (sockets s).
Proof. unfold send; simpl. apply isOpen_alter_push. Qed.

End Sockets.

(** ** What one event leaves untouched *)

Section Frames.
Implicit Types (s : Server) (h ws : handle) (ev : Event).

Ltac handlers :=
  unfold control, onMessage, onDeviceClose, onWebClose, onConnection,
         acceptDevice, acceptWeb, reject, attach.

Lemma control_registries deviceId command v t1 t2 s :
  let s' := (control deviceId command v t1 t2 s).2 in
  iotDevices s' = iotDevices s /\ webClients s' = webClients s /\
  registeredDevices s' = registeredDevices s.
Proof. cbv zeta. handlers. repeat case_match; simpl; done. Qed.

Lemma control_listenersOf deviceId command v t1 t2 s h :
  listenersOf h (control deviceId command v t1 t2 s).2 = listenersOf h s.
Proof.
  handlers. repeat case_match; simpl;
    rewrite ?listenersOf_broadcast; try done;
    try apply (listenersOf_send _ _ (log _ s)).
  all: try apply (listenersOf_send _ _ (with_deviceStates _ (log _ s))).
Qed.

Lemma control_readyStateOf deviceId command v t1 t2 s h :
  readyStateOf h (control deviceId command v t1 t2 s).2 = readyStateOf h s.
Proof.
  unfold control. cbv zeta.
  destruct (converts v); cbn [negb]; [|done].
  destruct (iotDevices _ !! deviceId) as [ws|]; [|done].
  destruct (isOpen _ _); [|done].
  destruct (hasOwnProperty _ _) as [[]|]; cbn [snd];
    rewrite ?readyStateOf_broadcast.
  - apply (readyStateOf_send _ _ (log _ s)).
  - apply (readyStateOf_send _ _ (log _ s)).
  - apply (readyStateOf_send _ _ (log _ s)).
Qed.

Lemma onMessage_registries deviceId message t1 t2 s :
  let s' := onMessage deviceId message t1 t2 s in
  iotDevices s' = iotDevices s /\ webClients s' = webClients s /\
  registeredDevices s' = registeredDevices s.
Proof. cbv zeta. handlers. repeat case_match; simpl; done. Qed.

Lemma onMessage_listenersOf deviceId message t1 t2 s h :
  listenersOf h (onMessage deviceId message t1 t2 s) = listenersOf h s.
Proof.
  handlers. repeat case_match; simpl; rewrite ?listenersOf_broadcast; done.
Qed.

Lemma listenersOf_alter_readyState rs ws s h :
  listenersOf h (with_sockets (alter (with_readyState rs) ws (sockets s)) s)
  = listenersOf h s.
Proof.
  unfold listenersOf; simpl. rewrite lookup_alter.
  case_decide; [subst |]; [|done]. by destruct (sockets s !! h).
Qed.

Lemma sockets_onConnection_ne ws ct did cid now s h :
  ws ≠ h ->
  sockets (onConnection ws ct did cid now s) !! h = sockets s !! h.
Proof.
  intros Hne. handlers. unfold send.
  repeat case_match; simpl; by rewrite ?lookup_alter_ne by done.
Qed.

(** A socket keeps the listeners it was given once and for all. *)
Lemma listenersOf_step ev s h :
  enabled ev s = true ->
  is_Some (sockets s !! h) ->
  listenersOf h (step ev s) = listenersOf h s.
Proof.
  intros Hen [sk Hsk]. destruct ev as [ws ct did cid now|ws m t1 t2|ws|ws t1 t2|d c v t1 t2];
    simpl in *.
  - apply bool_decide_eq_true in Hen.
    assert (ws ≠ h) by congruence.
    unfold listenersOf. rewrite sockets_onConnection_ne by done.
    simpl. by rewrite lookup_insert_ne.
  - destruct (listenersOf ws s); try done. apply onMessage_listenersOf.
  - apply listenersOf_alter_readyState.
  - destruct (listenersOf ws s); handlers; simpl;
      rewrite ?listenersOf_broadcast; apply listenersOf_alter_readyState.
  - apply control_listenersOf.
Qed.

Lemma is_Some_readyStateOf h s :
  is_Some (readyStateOf h s) <-> is_Some (sockets s !! h).
Proof. unfold readyStateOf. apply fmap_is_Some. Qed.

Lemma sockets_onConnection_is_Some ws ct did cid now s h :
  is_Some (sockets s !! h) ->
  is_Some (sockets (onConnection ws ct did cid now s) !! h).
Proof.
  intros Hh. handlers. unfold send.
  repeat case_match; simpl; by rewrite ?lookup_alter_is_Some.
Qed.

Lemma sockets_step_is_Some ev s h :
  is_Some (sockets s !! h) -> is_Some (sockets (step ev s) !! h).
Proof.
  intros Hh. destruct ev as [ws ct did cid now|ws m t1 t2|ws|ws t1 t2|d c v t1 t2];
    simpl.
  - apply sockets_onConnection_is_Some; simpl.
    rewrite lookup_insert_is_Some'. by right.
  - destruct (listenersOf ws s); try done.
    apply is_Some_readyStateOf. handlers.
    repeat case_match; simpl; rewrite ?readyStateOf_broadcast;
      by apply is_Some_readyStateOf.
  - by rewrite lookup_alter_is_Some.
  - destruct (listenersOf ws s).
    + simpl. by rewrite lookup_alter_is_Some.
    + unfold onDeviceClose. apply is_Some_readyStateOf.
      rewrite readyStateOf_broadcast. apply is_Some_readyStateOf; simpl.
      by rewrite lookup_alter_is_Some.
    + unfold onWebClose; simpl. by rewrite lookup_alter_is_Some.
  - apply is_Some_readyStateOf. rewrite control_readyStateOf.
    by apply is_Some_readyStateOf.
Qed.

Lemma iotDevices_step ev s :
  iotDevices (step ev s)
  = match ev with
    | Connection ws clientType deviceId _ _ =>
        if bool_decide (clientType = Some "device") && truthy deviceId
        then <[default "" deviceId := ws]> (iotDevices s)
        else iotDevices s
    | Close ws _ _ =>
        match listenersOf ws s with
        | DeviceListeners deviceId => delete deviceId (iotDevices s)
        | _ => iotDevices s
        end
    | _ => iotDevices s
    end.
Proof.
  destruct ev as [ws ct did cid now|ws m t1 t2|ws|ws t1 t2|d c v t1 t2];
    simpl.
  - handlers. by repeat case_match.
  - destruct (listenersOf ws s); try done. apply onMessage_registries.
  - done.
  - by destruct (listenersOf ws s).
  - apply control_registries.
Qed.

Lemma webClients_step ev s :
  webClients (step ev s)
  = match ev with
    | Connection ws clientType deviceId clientId _ =>
        if bool_decide (clientType = Some "device") && truthy deviceId
        then webClients s
        else if bool_decide (clientType = Some "web")
        then <[clientId := ws]> (webClients s)
        else webClients s
    | Close ws _ _ =>
        match listenersOf ws s with
        | WebListeners clientId => delete clientId (webClients s)
        | _ => webClients s
        end
    | _ => webClients s
    end.
Proof.
  destruct ev as [ws ct did cid now|ws m t1 t2|ws|ws t1 t2|d c v t1 t2];
    simpl.
  - handlers. by repeat case_match.
  - destruct (listenersOf ws s); try done. apply onMessage_registries.
  - done.
  - by destruct (listenersOf ws s).
  - apply control_registries.
Qed.

(** The listeners that the connection handler attaches to the new socket. *)
Lemma listenersOf_onConnection ws ct did cid now s :
  is_Some (sockets s !! ws) ->
  listenersOf ws (onConnection ws ct did cid now s)
  = if bool_decide (ct = Some "device") && truthy did
    then DeviceListeners (default "" did)
    else if bool_decide (ct = Some "web")
    then WebListeners cid
    else listenersOf ws s.
Proof.
  intros [sk Hsk]. handlers. unfold listenersOf, send.
  repeat case_match; simpl in *; simplify_eq;
    rewrite ?lookup_alter_eq in *; simplify_eq/=.
  all: repeat match goal with
       | H : _ <$> _ = Some _ |- _ => apply fmap_Some in H as (? & ? & ?)
       | H : _ <$> _ = None |- _ => apply fmap_None in H
       end; simplify_eq/=; try done.
Qed.

Lemma listenersOf_fresh ws s :
  sockets s !! ws = None -> listenersOf ws s = NoListeners.
Proof. intros H. unfold listenersOf. by rewrite H. Qed.

Lemma listenersOf_is_Some ws s :
  listenersOf ws s ≠ NoListeners -> is_Some (sockets s !! ws).
Proof. unfold listenersOf. destruct (sockets s !! ws); [eauto | done]. Qed.

Lemma registriesConsistent_initial t0 : registriesConsistent (initial t0).
Proof. split; intros ? ?; simpl; by rewrite lookup_empty. Qed.

Lemma registriesConsistent_step ev s :
  enabled ev s = true ->
  registriesConsistent s -> registriesConsistent (step ev s).
Proof.
  intros Hen [Hdev Hweb].
  assert (Hold : forall h, listenersOf h s ≠ NoListeners ->
                           listenersOf h (step ev s) = listenersOf h s).
  { intros h Hh. by apply listenersOf_step, listenersOf_is_Some. }
  assert (Hd : forall deviceId h, iotDevices s !! deviceId = Some h ->
               listenersOf h (step ev s) = DeviceListeners deviceId).
  { intros deviceId h Hl. rewrite Hold; [by apply Hdev |].
    by rewrite (Hdev _ _ Hl). }
  assert (Hw : forall clientId h, webClients s !! clientId = Some h ->
               listenersOf h (step ev s) = WebListeners clientId).
  { intros clientId h Hl. rewrite Hold; [by apply Hweb |].
    by rewrite (Hweb _ _ Hl). }
  split.
  - intros deviceId h. rewrite iotDevices_step.
    destruct ev as [ws ct did cid now|ws m t1 t2|ws|ws t1 t2|d c v t1 t2];
      try apply Hd.
    + destruct (bool_decide (ct = Some "device") && truthy did) eqn:Hbranch;
        [|apply Hd].
      rewrite lookup_insert. destruct (decide (default "" did = deviceId)) as [<-|];
        [|apply Hd].
      intros [= <-]. simpl.
      rewrite listenersOf_onConnection
        by (simpl; rewrite lookup_insert_eq; eauto).
      by rewrite Hbranch.
    + destruct (listenersOf ws s); try apply Hd.
      intros Hl. apply lookup_delete_Some in Hl as [_ Hl]. by apply Hd.
  - intros clientId h. rewrite webClients_step.
    destruct ev as [ws ct did cid now|ws m t1 t2|ws|ws t1 t2|d c v t1 t2];
      try apply Hw.
    + destruct (bool_decide (ct = Some "device") && truthy did) eqn:Hbranch;
        [apply Hw|].
      destruct (bool_decide (ct = Some "web")) eqn:Hbranch2; [|apply Hw].
      rewrite lookup_insert. destruct (decide (cid = clientId)) as [<-|];
        [|apply Hw].
      intros [= <-]. simpl.
      rewrite listenersOf_onConnection
        by (simpl; rewrite lookup_insert_eq; eauto).
      by rewrite Hbranch, Hbranch2.
    + destruct (listenersOf ws s); try apply Hw.
      intros Hl. apply lookup_delete_Some in Hl as [_ Hl]. by apply Hw.
Qed.

Lemma reachable_consistent s : reachable s -> registriesConsistent s.
Proof.
  induction 1 as [t0|ev s _ IH Hen].
  - apply registriesConsistent_initial.
  - by apply registriesConsistent_step.
Qed.

End Frames.

(** ** Runs of the event loop *)

Section Runs.
Implicit Types (s : Server) (h ws : handle) (ev : Event) (evs : list Event).

Lemma reachable_run evs s :
  reachable s -> admissible evs s = true -> reachable (run evs s).
Proof.
  revert s. induction evs as [|ev evs IH]; intros s Hs Hadm; simpl in *.
  - done.
  - apply andb_true_iff in Hadm as [Hen Hadm].
    apply IH; [by apply reachable_step | done].
Qed.

Lemma sockets_run_is_Some evs s h :
  is_Some (sockets s !! h) -> is_Some (sockets (run evs s) !! h).
Proof.
  revert s. induction evs as [|ev evs IH]; intros s Hh; simpl; [done |].
  by apply IH, sockets_step_is_Some.
Qed.

Lemma listenersOf_run evs s h :
  admissible evs s = true ->
  is_Some (sockets s !! h) ->
  listenersOf h (run evs s) = listenersOf h s.
Proof.
  revert s. induction evs as [|ev evs IH]; intros s Hadm Hh; simpl in *.
  - done.
  - apply andb_true_iff in Hadm as [Hen Hadm].
    rewrite IH by (done || by apply sockets_step_is_Some).
    by apply listenersOf_step.
Qed.

(** An existing connection that is in no entry of [iotDevices] stays out:
    only connections never seen before get registered. *)
Lemma unregistered_device_step ev s h :
  enabled ev s = true ->
  is_Some (sockets s !! h) ->
  (forall k, iotDevices s !! k ≠ Some h) ->
  forall k, iotDevices (step ev s) !! k ≠ Some h.
Proof.
  intros Hen [sk Hsk] Hno k. rewrite iotDevices_step.
  destruct ev as [ws ct did cid now|ws m t1 t2|ws|ws t1 t2|d c v t1 t2];
    try apply Hno.
  - simpl in Hen. apply bool_decide_eq_true in Hen.
    destruct (_ && _); [|apply Hno].
    rewrite lookup_insert. case_decide; [|apply Hno]. congruence.
  - destruct (listenersOf ws s); try apply Hno.
    rewrite lookup_delete. case_decide; [done | apply Hno].
Qed.

Lemma unregistered_device_run evs s h :
  admissible evs s = true ->
  is_Some (sockets s !! h) ->
  (forall k, iotDevices s !! k ≠ Some h) ->
  forall k, iotDevices (run evs s) !! k ≠ Some h.
Proof.
  revert s. induction evs as [|ev evs IH]; intros s Hadm Hh Hno; simpl in *.
  - done.
  - apply andb_true_iff in Hadm as [Hen Hadm].
    apply IH; [done | by apply sockets_step_is_Some |].
    by apply unregistered_device_step.
Qed.

(** As long as no event binds or unbinds an identifier, its entry stays. *)
Lemma undisturbed_step deviceId ev s :
  rebinds deviceId ev s = false ->
  iotDevices (step ev s) !! deviceId = iotDevices s !! deviceId.
Proof.
  intros Hq. rewrite iotDevices_step.
  destruct ev as [ws ct did cid now|ws m t1 t2|ws|ws t1 t2|d c v t1 t2];
    simpl in Hq; try done.
  - destruct (bool_decide (ct = Some "device")) eqn:Hct; simpl in *; [|done].
    apply bool_decide_eq_false in Hq.
    destruct did as [x|]; simpl; [|done].
    destruct (bool_decide (x = "")); simpl; [done |].
    rewrite lookup_insert_ne; [done | congruence].
  - destruct (listenersOf ws s); try done.
    apply bool_decide_eq_false in Hq. by rewrite lookup_delete_ne.
Qed.

Lemma undisturbed_run deviceId evs s :
  undisturbed deviceId evs s = true ->
  iotDevices (run evs s) !! deviceId = iotDevices s !! deviceId.
Proof.
  revert s. induction evs as [|ev evs IH]; intros s Hq; simpl in *.
  - done.
  - apply andb_true_iff in Hq as [Hq1 Hq].
    apply negb_true_iff in Hq1.
    rewrite IH by done. by apply undisturbed_step.
Qed.

End Runs.

(** ** The control endpoint *)

Section Control.
Implicit Types (s : Server) (h ws : handle).

Lemma entriesOf_dashboard s c h :
  registriesConsistent s ->
  webClients s !! c = Some h -> entriesOf h (webClients s) = 1.
Proof.
  intros [_ Hweb] Hc. apply (entriesOf_one _ _ c); [done |].
  intros c' Hc'. apply Hweb in Hc, Hc'. congruence.
Qed.

Lemma entriesOf_not_dashboard s h :
  registriesConsistent s ->
  (forall c, listenersOf h s ≠ WebListeners c) ->
  entriesOf h (webClients s) = 0.
Proof.
  intros [_ Hweb] Hh. apply entriesOf_none. intros c Hc.
  by apply (Hh c), Hweb.
Qed.

(** What a broadcast delivers: one frame to every open dashboard of the
    registry, nothing to anyone else. *)
Lemma broadcast_dashboard data s c h :
  registriesConsistent s ->
  webClients s !! c = Some h ->
  sentTo h (broadcastToWebClients data s)
  = (sentTo h s ++ if isOpen h (sockets s) then [data] else [])%list.
Proof.
  intros Hinv Hc. rewrite sentTo_broadcast.
  by rewrite (entriesOf_dashboard s c h).
Qed.

Lemma broadcast_other data s h :
  (forall c, webClients s !! c ≠ Some h) ->
  sentTo h (broadcastToWebClients data s) = sentTo h s.
Proof.
  intros Hno. rewrite sentTo_broadcast, entriesOf_none by done.
  destruct (isOpen _ _); apply app_nil_r.
Qed.

Lemma own_set_existing (o : object) k (w : option value) :
  has_own o k = true -> own (JS.set o k w) !! k = w.
Proof.
  intros Hk. unfold JS.set, reaches_proto_accessor.
  destruct (bool_decide (k = "__proto__")) eqn:E; cbn [andb].
  - apply bool_decide_eq_true in E. subst k. rewrite Hk.
    rewrite own_define. by destruct (decide _).
  - rewrite own_define. by destruct (decide _).
Qed.

Lemma own_set_other (o : object) k (w : option value) k' :
  k ≠ k' -> own (JS.set o k w) !! k' = own o !! k'.
Proof.
  intros Hne. unfold JS.set.
  destruct (_ && _).
  - by rewrite own_set_prototype.
  - rewrite own_define. by case_decide.
Qed.

(** The command path when the value converts to a string, the device is
    connected and open and the lookup of [hasOwnProperty] on [deviceStates]
    ends at the built-in. *)
Lemma control_success s deviceId command v t1 t2 ws :
  converts v = true ->
  registriesConsistent s ->
  iotDevices s !! deviceId = Some ws ->
  isOpen ws (sockets s) = true ->
  resolves_hasOwnProperty (deviceStates s) = true ->
  let r := control deviceId command v t1 t2 s in
  r.1 = Json 200 (commandSent deviceId command v) /\
  sentTo ws r.2 = (sentTo ws s ++ [commandMessage command v t1])%list /\
  (has_own (deviceStates s) command = true ->
   getSnapshot r.2 !! command = v) /\
  (forall k, k ≠ command -> getSnapshot r.2 !! k = getSnapshot s !! k) /\
  (forall c h, webClients s !! c = Some h ->
     sentTo h r.2
     = (sentTo h s ++ if isOpen h (sockets s)
                      then [stateUpdate deviceId command v t2] else [])%list) /\
  (forall h, h ≠ ws -> (forall c, webClients s !! c ≠ Some h) ->
     sentTo h r.2 = sentTo h s).
Proof.
  intros Hv Hinv Hdev Hopen Hres. unfold control. cbv zeta.
  rewrite Hv. cbn [negb].
  change (iotDevices (log _ s)) with (iotDevices s). rewrite Hdev.
  change (sockets (log _ s)) with (sockets s). rewrite Hopen.
  set (s1 := send ws _ _).
  change (deviceStates s1) with (deviceStates s).
  unfold hasOwnProperty. rewrite Hres.
  set (s2 := if has_own _ _ then _ else s1).
  assert (Hsock : sockets s2 = sockets s1).
  { subst s2. by destruct (has_own _ _). }
  assert (Hw2 : webClients s2 = webClients s).
  { subst s2. by destruct (has_own _ _). }
  assert (Hinv2 : registriesConsistent s2).
  { destruct Hinv as [Hd Hw]. split.
    - intros d h Hl.
      replace (listenersOf h s2) with (listenersOf h s1)
        by (unfold listenersOf; by rewrite Hsock).
      subst s1. rewrite listenersOf_send. apply Hd.
      revert Hl. subst s2. by destruct (has_own _ _).
    - intros c h Hl.
      replace (listenersOf h s2) with (listenersOf h s1)
        by (unfold listenersOf; by rewrite Hsock).
      subst s1. rewrite listenersOf_send. apply Hw. by rewrite <- Hw2. }
  assert (Hsent2 : forall h, sentTo h s2
            = (sentTo h s ++ if bool_decide (h = ws) then
                               [commandMessage command v t1] else [])%list).
  { intros h.
    replace (sentTo h s2) with (sentTo h s1)
      by (unfold sentTo; by rewrite Hsock).
    subst s1. rewrite sentTo_send.
    change (sentTo h (log _ s)) with (sentTo h s). f_equal.
    change (sockets (log _ s)) with (sockets s).
    destruct (decide (h = ws)) as [->|Hne].
    - rewrite bool_decide_eq_true_2.
      + by rewrite bool_decide_eq_true_2.
      + split; [done |]. unfold isOpen in Hopen.
        destruct (sockets s !! ws); [eauto | done].
    - rewrite bool_decide_eq_false_2 by (intros [? _]; congruence).
      by rewrite bool_decide_eq_false_2. }
  assert (Hdevice : forall c, webClients s2 !! c ≠ Some ws).
  { rewrite Hw2. intros c Hc. destruct Hinv as [Hd Hw].
    apply Hw in Hc. apply Hd in Hdev. congruence. }
  assert (Hopen2 : forall h, isOpen h (sockets s2) = isOpen h (sockets s)).
  { intros h. rewrite Hsock.
    exact (isOpen_send ws (commandMessage command v t1)
             (log (LogWebCommand deviceId command v) s) h). }
  simpl. repeat split.
  - rewrite broadcast_other by done. rewrite Hsent2.
    by rewrite bool_decide_eq_true_2.
  - intros Hk. unfold getSnapshot. simpl. subst s2.
    rewrite Hk. simpl. by apply own_set_existing.
  - intros k Hk. unfold getSnapshot. simpl. subst s2.
    destruct (has_own _ _); simpl; [|done]. by apply own_set_other.
  - intros c h Hc.
    rewrite (broadcast_dashboard _ s2 c h) by (done || by rewrite Hw2).
    rewrite Hsent2, Hopen2.
    rewrite bool_decide_eq_false_2, app_nil_r; [done |].
    intros ->. by apply (Hdevice c); rewrite Hw2.
  - intros h Hne Hno.
    rewrite broadcast_other by (by rewrite Hw2).
    rewrite Hsent2. by rewrite bool_decide_eq_false_2, app_nil_r.
Qed.

End Control.

(** ** Inbound frames of a device *)

Section Inbound.
Implicit Types (s : Server) (h ws : handle) (data : value).

Lemma isSensorData_true tag :
  isSensorData tag = true <-> tag = Some (JStr "sensorData").
Proof.
  destruct tag as [[]|]; simpl; try (split; [done | intros [=]]).
  rewrite bool_decide_eq_true. split; [by intros -> | by intros [= ->]].
Qed.

Lemma step_message_device s ws deviceId message t1 t2 :
  listenersOf ws s = DeviceListeners deviceId ->
  step (Message ws message t1 t2) s = onMessage deviceId message t1 t2 s.
Proof. intros Hl. simpl. by rewrite Hl. Qed.

(** A frame that is not a sensor report changes the console only. *)
Lemma onMessage_dropped s deviceId data t1 t2 :
  member data "type" ≠ Some (Some (JStr "sensorData")) ->
  let s' := onMessage deviceId (Some data) t1 t2 s in
  sockets s' = sockets s /\ iotDevices s' = iotDevices s /\
  webClients s' = webClients s /\ deviceStates s' = deviceStates s /\
  registeredDevices s' = registeredDevices s.
Proof.
  intros Htag. unfold onMessage. cbv zeta.
  destruct (member data "type") as [tag|]; [|done].
  destruct (isSensorData tag) eqn:E; [|done].
  apply isSensorData_true in E. congruence.
Qed.

(** A sensor report merges its [data] member and broadcasts it. *)
Lemma onMessage_sensorData s deviceId data fields t1 t2 :
  member data "type" = Some (Some (JStr "sensorData")) ->
  member data "data" = Some fields ->
  onMessage deviceId (Some data) t1 t2 s
  = broadcastToWebClients (sensorUpdate deviceId fields t2)
      (with_deviceStates (merge fields t1 (deviceStates s))
         (log (LogDeviceData deviceId data) s)).
Proof. intros Htag Hdata. unfold onMessage. by rewrite Htag, Hdata. Qed.


End Inbound.

(** The command path never writes [lastUpdate], unless the command is
    named so. *)
Lemma control_keeps_lastUpdate s deviceId command v t1 t2 :
  command ≠ "lastUpdate" ->
  getSnapshot (control deviceId command v t1 t2 s).2 !! "lastUpdate"
  = getSnapshot s !! "lastUpdate".
Proof.
  intros Hne. unfold control, getSnapshot. cbv zeta.
  destruct (converts v); cbn [negb]; [|done].
  destruct (iotDevices _ !! deviceId) as [ws|]; [|done].
  destruct (isOpen _ _); [|done].
  destruct (hasOwnProperty _ _) as [[]|]; simpl; try done.
  by apply own_set_other.
Qed.

(** The half of C5 that holds: a merge of sensor data refreshes
    [lastUpdate] to its clock reading. *)
Lemma merge_refreshes_lastUpdate s deviceId data fields t1 t2 :
  member data "type" = Some (Some (JStr "sensorData")) ->
  member data "data" = Some fields ->
  getSnapshot (onMessage deviceId (Some data) t1 t2 s) !! "lastUpdate"
  = Some (JStr t1).
Proof.
  intros Htag Hdata. rewrite (onMessage_sensorData _ _ _ fields) by done.
  unfold getSnapshot; simpl. apply own_merge_lastUpdate.
Qed.

Lemma member_temperatureFrame_type :
  member temperatureFrame "type" = Some (Some (JStr "sensorData")).
Proof. reflexivity. Qed.

Lemma member_temperatureFrame_data :
  member temperatureFrame "data" = Some (Some temperature30).
Proof. reflexivity. Qed.

(** ** Sequences of merges *)

Section Merges.
Implicit Types (ms : list (gmap string value * Time)) (o : object).

Lemma mergeAll_cons m ms o :
  mergeAll (m :: ms) o = mergeAll ms (merge (Some (JObj m.1)) m.2 o).
Proof. reflexivity. Qed.

Lemma mergeAll_value ms o k :
  k ≠ "__proto__" -> k ≠ "lastUpdate" ->
  own (mergeAll ms o) !! k
  = match lastMerged k ms with
    | Some v => Some v
    | None => own o !! k
    end.
Proof.
  intros Hp Hl. revert o. induction ms as [|m ms IH]; intros o; [done |].
  rewrite mergeAll_cons, IH. cbn [lastMerged].
  destruct (lastMerged k ms); [done |].
  rewrite own_merge_ne by done. cbn [own_enumerable]. rewrite lookup_union.
  by destruct (m.1 !! k), (own o !! k).
Qed.

Lemma mergeAll_lastUpdate ms o m :
  last ms = Some m ->
  own (mergeAll ms o) !! "lastUpdate" = Some (JStr m.2).
Proof.
  revert o. induction ms as [|m0 ms IH]; intros o Hlast; [done |].
  rewrite mergeAll_cons. destruct ms as [|m1 ms].
  - simpl in Hlast. injection Hlast as ->. apply own_merge_lastUpdate.
  - apply IH. exact Hlast.
Qed.

Lemma mergeAll_keys ms o k :
  k ≠ "__proto__" ->
  k ∈ dom (own o) ∪ mergedKeys ms -> k ∈ dom (own (mergeAll ms o)).
Proof.
  intros Hp. revert o. induction ms as [|m ms IH]; intros o Hk.
  - simpl in *. set_solver.
  - rewrite mergeAll_cons. apply IH. simpl in Hk.
    assert (Hk' : k ∈ mergedKeys ms \/ k ∈ dom (own o) ∪ dom m.1)
      by set_solver.
    destruct Hk' as [Hk'|Hk']; [set_solver |].
    apply elem_of_union_l, elem_of_dom.
    destruct (decide (k = "lastUpdate")) as [->|Hl].
    + rewrite own_merge_lastUpdate. eauto.
    + rewrite own_merge_ne by done. cbn [own_enumerable].
      rewrite lookup_union.
      apply elem_of_union in Hk' as [Hk'|Hk'];
        apply elem_of_dom in Hk' as [x Hx]; rewrite Hx.
      * destruct (m.1 !! k); simpl; eauto.
      * simpl. destruct (own o !! k); simpl; eauto.
Qed.

End Merges.

(** ** The device registry across connect and disconnect *)

Section Registry.
Implicit Types (s : Server) (h ws : handle) (l : list DeviceRecord).

Lemma find_updateStatus deviceId on t l d :
  find deviceId l = Some d ->
  find deviceId (updateStatus deviceId on t l) = Some (setStatus on t d).
Proof.
  induction l as [|d0 l IH]; simpl; [done |].
  case_bool_decide as Hid; simpl.
  - intros [= ->]. by rewrite bool_decide_eq_true_2.
  - intros Hf. rewrite bool_decide_eq_false_2 by done. by apply IH.
Qed.

Lemma updateStatus_unknown deviceId on t l :
  find deviceId l = None -> updateStatus deviceId on t l = l.
Proof.
  induction l as [|d0 l IH]; simpl; [done |].
  case_bool_decide; [done |]. intros Hf. by rewrite IH.
Qed.

Lemma find_updateStatus_ne deviceId other on t l :
  other ≠ deviceId ->
  find other (updateStatus deviceId on t l) = find other l.
Proof.
  intros Hne. induction l as [|d0 l IH]; simpl; [done |].
  case_bool_decide as Hid; simpl.
  - rewrite !bool_decide_eq_false_2 by congruence. done.
  - by rewrite IH.
Qed.

Lemma step_connection_device s ws deviceId cid now :
  deviceId ≠ "" ->
  step (Connection ws (Some "device") (Some deviceId) cid now) s
  = acceptDevice ws deviceId now
      (with_sockets (<[ws := accepted NoListeners]> (sockets s)) s).
Proof.
  intros Hne. simpl. unfold onConnection. simpl.
  by rewrite bool_decide_eq_false_2.
Qed.

Lemma broadcast_unique data s c h :
  webClients s !! c = Some h ->
  (forall c', webClients s !! c' = Some h -> c' = c) ->
  sentTo h (broadcastToWebClients data s)
  = (sentTo h s ++ if isOpen h (sockets s) then [data] else [])%list.
Proof.
  intros Hc Hu. rewrite sentTo_broadcast.
  by rewrite (entriesOf_one h _ c).
Qed.

Lemma dashboard_unique s c c' h :
  registriesConsistent s ->
  webClients s !! c = Some h -> webClients s !! c' = Some h -> c' = c.
Proof. intros [_ Hw] Hc Hc'. apply Hw in Hc, Hc'. congruence. Qed.

Lemma registered_is_Some s :
  registriesConsistent s ->
  (forall c h, webClients s !! c = Some h -> is_Some (sockets s !! h)) /\
  (forall d h, iotDevices s !! d = Some h -> is_Some (sockets s !! h)).
Proof.
  intros [Hd Hw]. split; intros k h Hk; apply listenersOf_is_Some.
  - by rewrite (Hw _ _ Hk).
  - by rewrite (Hd _ _ Hk).
Qed.

End Registry.

(** ** Who is sent what by a command *)

(** A socket that is not a dashboard of the registry is sent the command
    frame if the value converts to a string and the socket is the open
    connection bound to the identifier, and nothing otherwise; this holds
    whether or not the handler completes. *)
Lemma control_sentTo s deviceId command v t1 t2 h :
  (forall c, webClients s !! c ≠ Some h) ->
  sentTo h (control deviceId command v t1 t2 s).2
  = (sentTo h s ++
     if converts v && bool_decide (iotDevices s !! deviceId = Some h)
        && isOpen h (sockets s)
     then [commandMessage command v t1] else [])%list.
Proof.
  intros Hno. unfold control. cbv zeta.
  destruct (converts v); cbn [negb andb snd];
    [|symmetry; apply app_nil_r].
  change (iotDevices (log _ s)) with (iotDevices s).
  change (sockets (log _ s)) with (sockets s).
  destruct (iotDevices s !! deviceId) as [ws|] eqn:Hdev.
  2: { rewrite bool_decide_eq_false_2 by done. symmetry. apply app_nil_r. }
  assert (Hsend : forall s0, sockets s0 = sockets s ->
            isOpen ws (sockets s) = true ->
            sentTo h (send ws (commandMessage command v t1) s0)
            = (sentTo h s ++ if bool_decide (Some ws = Some h) && isOpen h (sockets s)
                             then [commandMessage command v t1] else [])%list).
  { intros s0 Hs0 Hopen. rewrite sentTo_send. unfold sentTo at 1. rewrite Hs0.
    fold (sentTo h s). f_equal.
    destruct (decide (ws = h)) as [->|Hne].
    - rewrite Hopen, (bool_decide_eq_true_2 (Some h = Some h)) by done.
      rewrite bool_decide_eq_true_2; [done |]. split; [done |].
      unfold isOpen in Hopen.
      destruct (sockets s !! h); [eauto | done].
    - rewrite (bool_decide_eq_false_2 (Some ws = Some h)) by congruence.
      by rewrite bool_decide_eq_false_2 by tauto. }
  destruct (isOpen ws (sockets s)) eqn:Hopen.
  - destruct (hasOwnProperty _ _) as [[]|]; cbn [snd].
    + rewrite broadcast_other by done.
      by apply (Hsend (log (LogWebCommand deviceId command v) s)).
    + rewrite broadcast_other by done.
      by apply (Hsend (log (LogWebCommand deviceId command v) s)).
    + by apply (Hsend (log (LogWebCommand deviceId command v) s)).
  - cbn [snd]. change (sentTo h (log _ s)) with (sentTo h s).
    destruct (decide (ws = h)) as [->|Hne].
    + rewrite Hopen, andb_false_r. symmetry. apply app_nil_r.
    + rewrite (bool_decide_eq_false_2 (Some ws = Some h)) by congruence.
      symmetry. apply app_nil_r.
Qed.

(** ** Classification of incoming connections *)

Lemma step_connection_rejected s ws clientType deviceId cid now :
  (clientType ≠ Some "device" /\ clientType ≠ Some "web") \/
  (clientType = Some "device" /\ truthy deviceId = false) ->
  step (Connection ws clientType deviceId cid now) s
  = reject ws (with_sockets (<[ws := accepted NoListeners]> (sockets s)) s).
Proof.
  intros Hbad. simpl. unfold onConnection.
  destruct Hbad as [[Hd Hw]|[-> Hid]].
  - by rewrite !bool_decide_eq_false_2.
  - rewrite Hid, andb_false_r. by rewrite bool_decide_eq_false_2.
Qed.

(** ** Keys of the shared state *)

(** A command assigns to a name only if it is an own property, so it keeps
    the names of the own properties. *)
Lemma ownKeys_control s deviceId command v t1 t2 :
  ownKeys (deviceStates (control deviceId command v t1 t2 s).2)
  = ownKeys (deviceStates s).
Proof.
  unfold control. cbv zeta.
  destruct (converts v); cbn [negb]; [|done].
  destruct (iotDevices _ !! deviceId) as [ws|]; [|done].
  destruct (isOpen _ _); [|done].
  destruct (hasOwnProperty _ _) as [known|] eqn:E; [|done].
  apply hasOwnProperty_Some in E as [_ ->].
  change (deviceStates (send _ _ _)) with (deviceStates s).
  destruct (has_own (deviceStates s) command) eqn:Hk; [|done].
  simpl. by apply ownKeys_set_existing.
Qed.

(** No handler removes an own property of [deviceStates]. *)
Lemma ownKeys_step ev s :
  ownKeys (deviceStates s) ⊆ ownKeys (deviceStates (step ev s)).
Proof.
  destruct ev as [ws ct did cid now|ws m t1 t2|ws|ws t1 t2|d c v t1 t2]; simpl.
  - unfold onConnection, acceptDevice, acceptWeb, reject.
    by repeat case_match.
  - destruct (listenersOf ws s); try done.
    unfold onMessage. destruct m as [data|]; [|done]. cbv zeta.
    destruct (member data "type") as [tag|]; [|done].
    destruct (isSensorData tag); [|done].
    destruct (member data "data") as [fields|]; [|done].
    simpl. apply ownKeys_merge.
  - done.
  - by destruct (listenersOf ws s).
  - by rewrite ownKeys_control.
Qed.

Lemma ownKeys_run evs s :
  ownKeys (deviceStates s) ⊆ ownKeys (deviceStates (run evs s)).
Proof.
  revert s. induction evs as [|ev evs IH]; intros s; [done |].
  simpl. etrans; [apply (ownKeys_step ev) | apply IH].
Qed.

Lemma reachable_initialKeys s k :
  reachable s -> k ∈ initialKeys -> has_own (deviceStates s) k = true.
Proof.
  induction 1 as [t0|ev s _ IH _]; intros Hk.
  - unfold initialKeys in Hk.
    repeat (apply elem_of_cons in Hk as [->|Hk]; [by vm_compute |]).
    by apply not_elem_of_nil in Hk.
  - apply has_own_true, (ownKeys_step ev), has_own_true, IH, Hk.
Qed.

(** What C1 says, for the states in which the lookup of [hasOwnProperty] on
    [deviceStates] ends at the built-in: the command frame goes to the
    device, [led] becomes [true], each open dashboard is sent exactly one
    [stateUpdate] frame, and success is answered. *)
Lemma issueCommand_led_on s deviceId ws t1 t2 :
  reachable s ->
  iotDevices s !! deviceId = Some ws ->
  isOpen ws (sockets s) = true ->
  resolves_hasOwnProperty (deviceStates s) = true ->
  let r := control deviceId "led" (Some (JBool true)) t1 t2 s in
  r.1 = Json 200 (commandSent deviceId "led" (Some (JBool true))) /\
  sentTo ws r.2
  = (sentTo ws s ++ [commandMessage "led" (Some (JBool true)) t1])%list /\
  getSnapshot r.2 !! "led" = Some (JBool true) /\
  (forall c h, webClients s !! c = Some h ->
     sentTo h r.2
     = (sentTo h s ++ if isOpen h (sockets s)
                      then [stateUpdate deviceId "led" (Some (JBool true)) t2]
                      else [])%list).
Proof.
  intros Hs Hdev Hopen Hres.
  destruct (control_success s deviceId "led" (Some (JBool true)) t1 t2 ws
              eq_refl (reachable_consistent s Hs) Hdev Hopen Hres)
    as (Hr & Hsent & Hled & _ & Hweb & _).
  cbv zeta. repeat split; try done.
  apply Hled, reachable_initialKeys; [done |]. set_solver.
Qed.

(** Once [deviceStates] has an own property named [hasOwnProperty], every
    command to a connected, open device whose value converts to a string
    throws right after the command frame was sent: the shared state is not
    written and nothing is broadcast. *)
Lemma control_throws_when_shadowed s deviceId command v t1 t2 ws x :
  converts v = true ->
  iotDevices s !! deviceId = Some ws ->
  isOpen ws (sockets s) = true ->
  getSnapshot s !! "hasOwnProperty" = Some x ->
  control deviceId command v t1 t2 s
  = (Uncaught,
     send ws (commandMessage command v t1)
       (log (LogWebCommand deviceId command v) s)).
Proof.
  intros Hv Hdev Hopen Hx. unfold control. cbv zeta. rewrite Hv. cbn [negb].
  change (iotDevices (log _ s)) with (iotDevices s). rewrite Hdev.
  change (sockets (log _ s)) with (sockets s). rewrite Hopen.
  change (deviceStates (send _ _ _)) with (deviceStates s).
  by rewrite (hasOwnProperty_shadowed _ _ x).
Qed.

(** What C3 says, for the keys other than [__proto__]: after any sequence
    of merges the snapshot contains every initial key and every merged key;
    each key other than [lastUpdate] holds the value merged last under it, or
    its initial value if it was never merged; and [lastUpdate] is the clock
    reading of the last merge. *)
Lemma merges_accumulate ms o :
  (forall k, k ≠ "__proto__" ->
     k ∈ dom (own o) ∪ mergedKeys ms -> k ∈ dom (own (mergeAll ms o))) /\
  (forall k, k ≠ "__proto__" -> k ≠ "lastUpdate" ->
     own (mergeAll ms o) !! k
     = match lastMerged k ms with
       | Some v => Some v
       | None => own o !! k
       end) /\
  (forall m, last ms = Some m ->
     own (mergeAll ms o) !! "lastUpdate" = Some (JStr m.2)).
Proof.
  split; [|split].
  - intros k. apply mergeAll_keys.
  - intros k. apply mergeAll_value.
  - intros m. apply mergeAll_lastUpdate.
Qed.

(** What C2 says, for the values that convert to a string: when the
    identifier has no entry in [iotDevices], or the socket of its entry is
    not open, the command is answered 404 with the not-connected body. *)
Lemma control_not_connected s deviceId command v t1 t2 :
  converts v = true ->
  (iotDevices s !! deviceId = None \/
   exists ws, iotDevices s !! deviceId = Some ws /\
              isOpen ws (sockets s) = false) ->
  (control deviceId command v t1 t2 s).1
  = Json 404
      (JObj (<["success" := JBool false]>
            (<["error" := JStr ("Device " +:+ deviceId +:+ " is not connected")]>
               ∅))).
Proof.
  intros Hv Habsent. unfold control. cbv zeta. rewrite Hv. cbn [negb].
  change (iotDevices (log _ s)) with (iotDevices s).
  change (sockets (log _ s)) with (sockets s).
  destruct Habsent as [Hnone|(ws & Hws & Hclosed)].
  - by rewrite Hnone.
  - by rewrite Hws, Hclosed.
Qed.

(** Whatever the value, such a command leaves the shared state, the device
    registry, both connection registries and every socket as they were. *)
Lemma control_not_connected_state s deviceId command v t1 t2 :
  (iotDevices s !! deviceId = None \/
   exists ws, iotDevices s !! deviceId = Some ws /\
              isOpen ws (sockets s) = false) ->
  let r := control deviceId command v t1 t2 s in
  deviceStates r.2 = deviceStates s /\
  registeredDevices r.2 = registeredDevices s /\
  iotDevices r.2 = iotDevices s /\
  webClients r.2 = webClients s /\
  sockets r.2 = sockets s.
Proof.
  intros Habsent. unfold control. cbv zeta.
  destruct (converts v); cbn [negb]; [|done].
  change (iotDevices (log _ s)) with (iotDevices s).
  change (sockets (log _ s)) with (sockets s).
  destruct Habsent as [Hnone|(ws & Hws & Hclosed)].
  - by rewrite Hnone.
  - by rewrite Hws, Hclosed.
Qed.

(** What C8 says, as far as the code goes: [iotDevices] is a map, so an
    identifier has at most one entry.  When a device connects under an
    identifier bound to an earlier connection, the entry now holds the new
    connection and no entry holds the earlier one.  From then on no command
    for that identifier ever sends a frame to the earlier connection; the
    entry keeps holding the new connection as long as no event binds or
    unbinds the identifier, and every command with a value that converts to
    a string, issued while the entry holds the new connection and it is
    open, sends its command frame, exactly one, to the new connection. *)
Lemma reconnect_replaces s deviceId ws1 ws2 cid now :
  reachable s ->
  deviceId ≠ "" ->
  iotDevices s !! deviceId = Some ws1 ->
  enabled (Connection ws2 (Some "device") (Some deviceId) cid now) s = true ->
  let s2 := step (Connection ws2 (Some "device") (Some deviceId) cid now) s in
  iotDevices s2 !! deviceId = Some ws2 /\
  (forall k, iotDevices s2 !! k ≠ Some ws1) /\
  forall evs, admissible evs s2 = true ->
    let s3 := run evs s2 in
    (undisturbed deviceId evs s2 = true -> iotDevices s3 !! deviceId = Some ws2) /\
    forall command v t1 t2,
      let s4 := (control deviceId command v t1 t2 s3).2 in
      sentTo ws1 s4 = sentTo ws1 s3 /\
      (converts v = true ->
       iotDevices s3 !! deviceId = Some ws2 ->
       isOpen ws2 (sockets s3) = true ->
       sentTo ws2 s4 = (sentTo ws2 s3 ++ [commandMessage command v t1])%list).
Proof.
  intros Hs Hne Hold Hen. cbv zeta.
  pose proof (reachable_consistent s Hs) as Hinv.
  assert (Hs2 : reachable (step (Connection ws2 (Some "device") (Some deviceId)
                                            cid now) s))
    by (by apply reachable_step).
  set (s2 := step _ s) in *.
  assert (Hfresh : sockets s !! ws2 = None)
    by (simpl in Hen; by apply bool_decide_eq_true in Hen).
  assert (Hws1 : is_Some (sockets s !! ws1))
    by (by apply (registered_is_Some s Hinv) in Hold).
  assert (Hdiff : ws1 ≠ ws2).
  { intros ->. destruct Hws1. congruence. }
  assert (Hl1 : listenersOf ws1 s = DeviceListeners deviceId)
    by (by apply Hinv).
  assert (Hreg : iotDevices s2 = <[deviceId := ws2]> (iotDevices s)).
  { unfold s2. rewrite iotDevices_step. simpl.
    by rewrite bool_decide_eq_false_2. }
  assert (Hnew : iotDevices s2 !! deviceId = Some ws2)
    by (by rewrite Hreg, lookup_insert_eq).
  assert (Hgone : forall k, iotDevices s2 !! k ≠ Some ws1).
  { intros k. rewrite Hreg, lookup_insert. case_decide; [congruence |].
    intros Hk. destruct Hinv as [Hd _]. apply Hd in Hk. congruence. }
  assert (Hws1' : is_Some (sockets s2 !! ws1))
    by (by apply sockets_step_is_Some).
  assert (Hl2 : listenersOf ws1 s2 = DeviceListeners deviceId).
  { unfold s2. by rewrite listenersOf_step. }
  split; [done |]. split; [done |].
  intros evs Hadm. split.
  - intros Hq. by rewrite undisturbed_run.
  - intros command v t1 t2.
    destruct (reachable_consistent _ (reachable_run evs s2 Hs2 Hadm))
      as [Hd3 Hw3].
    assert (Hl3 : listenersOf ws1 (run evs s2) = DeviceListeners deviceId)
      by (by rewrite listenersOf_run).
    split.
    + rewrite control_sentTo.
      * rewrite bool_decide_eq_false_2, andb_false_r; [apply app_nil_r |].
        by apply unregistered_device_run.
      * intros c Hc. apply Hw3 in Hc. congruence.
    + intros Hv Hbound Hopen. rewrite control_sentTo.
      * by rewrite Hv, bool_decide_eq_true_2, Hopen.
      * intros c Hc. apply Hw3 in Hc. apply Hd3 in Hbound. congruence.
Qed.

(** * The claims of the specification *)

(** C1: a run on which the command does not do what the claim says.  The
    kitchen sensor is connected and open; it has reported a field named
    [hasOwnProperty].  [issueCommand("device_001", "led", true)] then sends
    the command frame to the device, but the call
    [deviceStates.hasOwnProperty(command)] throws: [led] stays [false], no
    [stateUpdate] frame reaches the dashboard and no success is answered. *)
Theorem issueCommand_after_shadowing_report :
  let s := run [shadowingReport] serving in
  let t1 := "2024-05-01T10:00:04.000Z" in
  let t2 := "2024-05-01T10:00:04.001Z" in
  let r := control "device_001" "led" (Some (JBool true)) t1 t2 s in
  admissible [kitchenConnects; dashboardConnects; shadowingReport; ledOn]
             started = true /\
  iotDevices s !! "device_001" = Some 0 /\
  isOpen 0 (sockets s) = true /\
  webClients s !! "k3x9q" = Some 1 /\
  isOpen 1 (sockets s) = true /\
  r.1 = Uncaught /\
  sentTo 0 r.2
  = (sentTo 0 s ++ [commandMessage "led" (Some (JBool true)) t1])%list /\
  getSnapshot r.2 !! "led" = Some (JBool false) /\
  sentTo 1 r.2 = sentTo 1 s.
Proof. vm_compute. repeat split; reflexivity. Qed.

(** C2: a command that does not fail with the not-connected answer although
    the identifier has no connection.  On the server just started nothing is
    registered under [device_002].  A command for it whose value is the
    parsed object [{"toString": 1}] throws in the first line of the handler,
    where the template literal of the log line converts the value to a
    string: no answer is given, while the same command with the value [true]
    is answered 404 with the not-connected body.  In both cases the server
    state is exactly as before. *)
Theorem issueCommand_with_unprintable_value :
  let t1 := "2024-05-01T10:00:04.000Z" in
  let t2 := "2024-05-01T10:00:04.001Z" in
  let r := control "device_002" "led" (Some unprintable) t1 t2 started in
  let r' := control "device_002" "led" (Some (JBool true)) t1 t2 started in
  iotDevices started !! "device_002" = None /\
  r.1 = Uncaught /\
  r.2 = started /\
  r'.1 = Json 404
           (JObj (<["success" := JBool false]>
                 (<["error" := JStr "Device device_002 is not connected"]> ∅))) /\
  deviceStates r'.2 = deviceStates started /\
  registeredDevices r'.2 = registeredDevices started /\
  iotDevices r'.2 = iotDevices started /\
  webClients r'.2 = webClients started /\
  sockets r'.2 = sockets started.
Proof. vm_compute. repeat split; reflexivity. Qed.

(** C3: a merge that does not do what the claim says.  The field mapping
    [{"__proto__": 5}] is merged into the initial shared state:
    [Object.assign] assigns the key, the assignment runs the inherited
    [__proto__] setter, which ignores a number, and the snapshot afterwards
    has no key [__proto__], although it is a merged key whose most recently
    merged value is 5. *)
Theorem merge_of_proto_key_is_lost :
  let ms := [({["__proto__" := int 5]}, "2024-05-01T10:00:03.000Z")] in
  let o := initialStates "2024-05-01T10:00:00.000Z" in
  "__proto__" ∈ mergedKeys ms /\
  lastMerged "__proto__" ms = Some (int 5) /\
  own (mergeAll ms o) !! "__proto__" = None /\
  ~ mergesAccumulate ms o.
Proof.
  cbv zeta. split; [|split; [|split]].
  - apply elem_of_union_l, elem_of_dom. by exists (int 5).
  - reflexivity.
  - reflexivity.
  - intros (_ & Hval & _).
    specialize (Hval "__proto__" ltac:(discriminate)).
    vm_compute in Hval. discriminate Hval.
Qed.




(** C5: a successful command on an existing key that does not refresh
    [lastUpdate].  With the kitchen sensor connected,
    [issueCommand("device_001", "led", true)] succeeds and sets [led], and
    [lastUpdate] still holds the start-up time, neither clock reading of the
    command. *)
Theorem issueCommand_keeps_lastUpdate :
  let t1 := "2024-05-01T10:00:04.000Z" in
  let t2 := "2024-05-01T10:00:04.001Z" in
  let r := control "device_001" "led" (Some (JBool true)) t1 t2 serving in
  r.1 = Json 200 (commandSent "device_001" "led" (Some (JBool true))) /\
  getSnapshot serving !! "led" = Some (JBool false) /\
  getSnapshot r.2 !! "led" = Some (JBool true) /\
  getSnapshot r.2 !! "lastUpdate" = Some (JStr "2024-05-01T10:00:00.000Z").
Proof. vm_compute. repeat split; reflexivity. Qed.

(** C6: a device connects with an accepted identifier and its connection
    is then reported closed.  If the registry has a record [d] for the
    identifier, then after the connect the record found under the identifier
    has [online = true] and [lastSeen] the clock reading of the connect, and
    after the disconnect it has [online = false] and [lastSeen] the clock
    reading of the disconnect, with [id], [name], [type] and [location] those
    of [d] both times (so a record that was offline goes offline, online,
    offline).  The connect sends nothing to a dashboard; on the disconnect
    every open dashboard of the registry is sent exactly one frame
    [{type: "deviceDisconnected", deviceId, timestamp}] with the identifier
    and the second clock reading of the disconnect, and a dashboard that is
    not open is sent nothing.  If the registry has no such record, it is left
    as it was by both events; the records of other identifiers are untouched
    in any case. *)
Theorem connect_then_disconnect s ws deviceId cid now t1 t2 :
  reachable s ->
  deviceId ≠ "" ->
  enabled (Connection ws (Some "device") (Some deviceId) cid now) s = true ->
  let s1 := step (Connection ws (Some "device") (Some deviceId) cid now) s in
  let s2 := step (Close ws t1 t2) s1 in
  enabled (Close ws t1 t2) s1 = true /\
  (forall d, find deviceId (registeredDevices s) = Some d ->
     find deviceId (registeredDevices s1)
     = Some {| id := id d; name := name d; type := type d;
               location := location d;
               online := true; lastSeen := Some now |} /\
     find deviceId (registeredDevices s2)
     = Some {| id := id d; name := name d; type := type d;
               location := location d;
               online := false; lastSeen := Some t1 |}) /\
  (find deviceId (registeredDevices s) = None ->
     registeredDevices s1 = registeredDevices s /\
     registeredDevices s2 = registeredDevices s) /\
  (forall other, other ≠ deviceId ->
     find other (registeredDevices s1) = find other (registeredDevices s) /\
     find other (registeredDevices s2) = find other (registeredDevices s)) /\
  (forall c h, webClients s !! c = Some h ->
     sentTo h s1 = sentTo h s /\
     sentTo h s2
     = (sentTo h s ++
        if isOpen h (sockets s)
        then [JObj (<["type" := JStr "deviceDisconnected"]>
                   (<["deviceId" := JStr deviceId]>
                   (<["timestamp" := JStr t2]> ∅)))]
        else [])%list).
Proof.
  intros Hs Hne Hfresh. cbv zeta.
  pose proof (reachable_consistent s Hs) as Hinv.
  simpl in Hfresh. apply bool_decide_eq_true in Hfresh.
  set (s1 := step (Connection _ _ _ _ _) s).
  assert (Hs1 : s1 = acceptDevice ws deviceId now
                  (with_sockets (<[ws := accepted NoListeners]> (sockets s)) s))
    by (by apply step_connection_device).
  assert (Hsock1 : sockets s1 !! ws
                   = Some {| readyState := OPEN; sent := [config deviceId];
                             closeCall := None;
                             listeners := DeviceListeners deviceId |}).
  { rewrite Hs1. unfold acceptDevice, attach, send. simpl.
    by rewrite !lookup_alter_eq, lookup_insert_eq. }
  assert (Hother : forall h, h ≠ ws -> sockets s1 !! h = sockets s !! h).
  { intros h Hh. rewrite Hs1. unfold acceptDevice, attach, send. simpl.
    by rewrite !lookup_alter_ne, lookup_insert_ne by done. }
  assert (Hreg1 : registeredDevices s1
                  = updateStatus deviceId true now (registeredDevices s))
    by (by rewrite Hs1).
  assert (Hweb1 : webClients s1 = webClients s) by (by rewrite Hs1).
  assert (Hl1 : listenersOf ws s1 = DeviceListeners deviceId).
  { unfold listenersOf. by rewrite Hsock1. }
  set (s2 := step (Close ws t1 t2) s1).
  assert (Hs2 : s2 = onDeviceClose deviceId t1 t2
                  (with_sockets (alter (with_readyState CLOSED) ws (sockets s1)) s1)).
  { unfold s2. simpl. by rewrite Hl1. }
  assert (Hreg2 : registeredDevices s2
                  = updateStatus deviceId false t1 (registeredDevices s1))
    by (by rewrite Hs2).
  split; [|split; [|split; [|split]]].
  - simpl. unfold readyStateOf. by rewrite Hsock1.
  - intros d Hd. split.
    + rewrite Hreg1. exact (find_updateStatus _ _ _ _ _ Hd).
    + rewrite Hreg2, Hreg1.
      exact (find_updateStatus _ false t1 _ _
               (find_updateStatus _ true now _ _ Hd)).
  - intros Hnone.
    assert (registeredDevices s1 = registeredDevices s) as Heq
      by (rewrite Hreg1; by apply updateStatus_unknown).
    split; [done |]. rewrite Hreg2, Heq. by apply updateStatus_unknown.
  - intros other Hother'. rewrite Hreg2, Hreg1.
    by rewrite !find_updateStatus_ne.
  - intros c h Hc.
    assert (Hh : h ≠ ws).
    { intros ->. apply (registered_is_Some s Hinv) in Hc as [? ?]. congruence. }
    split.
    { unfold sentTo. by rewrite Hother. }
    rewrite Hs2. unfold onDeviceClose. cbv zeta.
    set (x := with_registeredDevices _ _).
    assert (Hx : sockets x !! h = sockets s !! h).
    { unfold x; simpl. rewrite lookup_alter_ne by done. by apply Hother. }
    rewrite (broadcast_unique _ x c h).
    + unfold sentTo, isOpen. by rewrite Hx.
    + unfold x; simpl. by rewrite Hweb1.
    + unfold x; simpl. rewrite Hweb1. intros c' Hc'.
      by apply (dashboard_unique s c c' h).
Qed.

Lemma connect_then_disconnect_witness :
  let s := run [dashboardConnects] started in
  let s1 := step kitchenConnects s in
  let s2 := step (Close 0 "2024-05-01T10:00:06.000Z"
                          "2024-05-01T10:00:06.001Z") s1 in
  reachable s /\
  find "device_001" (registeredDevices s)
  = Some {| id := "device_001"; name := "Kitchen Sensor"; type := "sensor";
            location := "Kitchen"; online := false; lastSeen := None |} /\
  find "device_001" (registeredDevices s1)
  = Some {| id := "device_001"; name := "Kitchen Sensor"; type := "sensor";
            location := "Kitchen"; online := true;
            lastSeen := Some "2024-05-01T10:00:01.000Z" |} /\
  find "device_001" (registeredDevices s2)
  = Some {| id := "device_001"; name := "Kitchen Sensor"; type := "sensor";
            location := "Kitchen"; online := false;
            lastSeen := Some "2024-05-01T10:00:06.000Z" |} /\
  sentTo 1 s2
  = (sentTo 1 s ++
     [JObj (<["type" := JStr "deviceDisconnected"]>
           (<["deviceId" := JStr "device_001"]>
           (<["timestamp" := JStr "2024-05-01T10:00:06.001Z"]> ∅)))])%list.
Proof.
  cbv zeta.
  assert (Hr : reachable (run [dashboardConnects] started)).
  { apply (reachable_run [dashboardConnects] started);
      [apply reachable_initial | reflexivity]. }
  assert (Hid : "device_001" ≠ "") by discriminate.
  destruct (connect_then_disconnect (run [dashboardConnects] started)
              0 "device_001" "" "2024-05-01T10:00:01.000Z"
              "2024-05-01T10:00:06.000Z" "2024-05-01T10:00:06.001Z"
              Hr Hid eq_refl) as (_ & Hrecord & _ & _ & Hsent).
  split; [exact Hr |]. split; [reflexivity |].
  split; [exact (proj1 (Hrecord _ eq_refl)) |].
  split; [exact (proj2 (Hrecord _ eq_refl)) |].
  exact (proj2 (Hsent "k3x9q" 1 eq_refl)).
Defined.

(** C7: a connection whose [type] parameter is absent or is neither
    [device] nor [web], and a connection of type [device] without a
    [deviceId] (or with an empty one), is closed at once with code 1008 and
    the reason [Invalid client type]; neither registry changes, and in no
    later state of the server does either registry hold the connection. *)
Theorem invalid_connection_rejected s ws clientType deviceId cid now :
  reachable s ->
  enabled (Connection ws clientType deviceId cid now) s = true ->
  (clientType ≠ Some "device" /\ clientType ≠ Some "web") \/
  (clientType = Some "device" /\ truthy deviceId = false) ->
  let s1 := step (Connection ws clientType deviceId cid now) s in
  closeCall <$> sockets s1 !! ws = Some (Some (1008%Z, "Invalid client type")) /\
  readyStateOf ws s1 = Some CLOSING /\
  iotDevices s1 = iotDevices s /\
  webClients s1 = webClients s /\
  forall evs, admissible evs s1 = true ->
    forall k, iotDevices (run evs s1) !! k ≠ Some ws /\
              webClients (run evs s1) !! k ≠ Some ws.
Proof.
  intros Hs Hen Hbad. cbv zeta.
  assert (Hs1 : reachable (step (Connection ws clientType deviceId cid now) s))
    by (by apply reachable_step).
  rewrite step_connection_rejected in * by done.
  set (s1 := reject ws _) in *.
  assert (Hsock : sockets s1 !! ws
                  = Some (closing 1008 "Invalid client type" (accepted NoListeners))).
  { unfold s1, reject; simpl. by rewrite lookup_alter_eq, lookup_insert_eq. }
  split; [by rewrite Hsock |]. split; [unfold readyStateOf; by rewrite Hsock |].
  split; [done |]. split; [done |].
  intros evs Hadm k.
  assert (Hl : listenersOf ws (run evs s1) = NoListeners).
  { rewrite listenersOf_run by (done || by rewrite Hsock).
    unfold listenersOf. by rewrite Hsock. }
  destruct (reachable_consistent _ (reachable_run evs s1 Hs1 Hadm)) as [Hd Hw].
  split; intros Hk.
  - apply Hd in Hk. congruence.
  - apply Hw in Hk. congruence.
Qed.

Lemma invalid_connection_rejected_witness :
  reachable serving /\
  enabled (Connection 2 (Some "sensor") (Some "device_001") "" "t") serving = true /\
  readyStateOf 2 (step (Connection 2 (Some "sensor") (Some "device_001") "" "t")
                       serving) = Some CLOSING.
Proof.
  assert (Hr : reachable serving).
  { apply (reachable_run [kitchenConnects; dashboardConnects] started);
      [apply reachable_initial | reflexivity]. }
  split; [exact Hr |]. split; [reflexivity |].
  apply (invalid_connection_rejected serving 2 (Some "sensor")
           (Some "device_001") "" "t" Hr eq_refl).
  left. split; discriminate.
Defined.

(** C8: a run on which a command for the identifier does not reach the
    second connection.  The kitchen sensor connects (connection 0), then
    connects again under the same identifier (connection 2), which replaces
    the entry of [iotDevices]; then ['close'] is emitted on connection 0,
    whose listener deletes the entry by identifier, that is, the entry of
    connection 2.  Connection 2 is still open, but the command that follows
    is answered 404 with the not-connected body and sends it nothing. *)
Theorem close_of_earlier_connection_unbinds :
  let closeFirst :=
    Close 0 "2024-05-01T10:00:06.000Z" "2024-05-01T10:00:06.001Z" in
  let t1 := "2024-05-01T10:00:07.000Z" in
  let t2 := "2024-05-01T10:00:07.001Z" in
  let s := run [closeFirst] reconnected in
  let r := control "device_001" "led" (Some (JBool true)) t1 t2 s in
  admissible [kitchenConnects; dashboardConnects; kitchenReconnects;
              closeFirst; Control "device_001" "led" (Some (JBool true)) t1 t2]
             started = true /\
  iotDevices serving !! "device_001" = Some 0 /\
  iotDevices reconnected !! "device_001" = Some 2 /\
  readyStateOf 2 s = Some OPEN /\
  iotDevices s !! "device_001" = None /\
  r.1 = Json 404
          (JObj (<["success" := JBool false]>
                (<["error" := JStr "Device device_001 is not connected"]> ∅))) /\
  sentTo 2 r.2 = sentTo 2 s /\
  ~ commandsReach "device_001" 2 reconnected.
Proof.
  cbv zeta.
  split; [reflexivity |]. split; [reflexivity |]. split; [reflexivity |].
  split; [reflexivity |]. split; [reflexivity |].
  split; [vm_compute; reflexivity |]. split; [vm_compute; reflexivity |].
  intros H.
  specialize (H [Close 0 "2024-05-01T10:00:06.000Z" "2024-05-01T10:00:06.001Z"]
                eq_refl "led" (Some (JBool true))
                "2024-05-01T10:00:07.000Z" "2024-05-01T10:00:07.001Z").
  vm_compute in H. discriminate H.
Qed.

(** C9: a frame of an active device connection for which [JSON.parse]
    throws is logged and has no other effect: every socket is as before (the
    connection is not closed and nothing is sent to anyone), the connection
    stays in [iotDevices], and the shared state and the device registry are
    unchanged. *)
Theorem malformed_frame_ignored s ws deviceId t1 t2 :
  listenersOf ws s = DeviceListeners deviceId ->
  enabled (Message ws None t1 t2) s = true ->
  let s' := step (Message ws None t1 t2) s in
  console s' = (console s ++ [LogMessageError])%list /\
  sockets s' = sockets s /\
  iotDevices s' = iotDevices s /\
  webClients s' = webClients s /\
  deviceStates s' = deviceStates s /\
  registeredDevices s' = registeredDevices s.
Proof. intros Hl _. cbv zeta. by rewrite (step_message_device _ _ deviceId). Qed.

Lemma malformed_frame_ignored_witness :
  listenersOf 0 serving = DeviceListeners "device_001" /\
  enabled (Message 0 None "t1" "t2") serving = true /\
  sockets (step (Message 0 None "t1" "t2") serving) = sockets serving.
Proof.
  split; [reflexivity |]. split; [reflexivity |].
  apply (malformed_frame_ignored serving 0 "device_001" "t1" "t2");
    reflexivity.
Defined.

(** C10: a frame of an active device connection that parses but whose
    [type] member is not the string [sensorData] (no such member, another
    value, or a [null] frame) changes no field of the shared state, no
    registry and no socket: nothing is broadcast. *)
Theorem other_tag_dropped s ws deviceId data t1 t2 :
  listenersOf ws s = DeviceListeners deviceId ->
  enabled (Message ws (Some data) t1 t2) s = true ->
  member data "type" ≠ Some (Some (JStr "sensorData")) ->
  let s' := step (Message ws (Some data) t1 t2) s in
  deviceStates s' = deviceStates s /\
  registeredDevices s' = registeredDevices s /\
  iotDevices s' = iotDevices s /\
  webClients s' = webClients s /\
  sockets s' = sockets s.
Proof.
  intros Hl _ Htag. cbv zeta. rewrite (step_message_device _ _ deviceId) by done.
  pose proof (onMessage_dropped s deviceId data t1 t2 Htag) as H.
  cbv zeta in H. tauto.
Qed.

Lemma other_tag_dropped_witness :
  listenersOf 0 serving = DeviceListeners "device_001" /\
  deviceStates (step (Message 0 (Some (JObj {["type" := JStr "ping"]}))
                             "t1" "t2") serving)
  = deviceStates serving.
Proof.
  split; [reflexivity |].
  apply (other_tag_dropped serving 0 "device_001"
           (JObj {["type" := JStr "ping"]}) "t1" "t2");
    [reflexivity | reflexivity | vm_compute; discriminate].
Defined.

(** * Further properties of the server *)

(** ** What an event does to the state of the sockets *)

Lemma readyStateOf_onConnection ws ct did cid now s h :
  ws ≠ h ->
  readyStateOf h (onConnection ws ct did cid now s) = readyStateOf h s.
Proof.
  intros Hne. unfold readyStateOf. by rewrite sockets_onConnection_ne.
Qed.

Lemma readyStateOf_onMessage deviceId message t1 t2 s h :
  readyStateOf h (onMessage deviceId message t1 t2 s) = readyStateOf h s.
Proof.
  unfold onMessage. destruct message as [data|]; [|done]. cbv zeta.
  destruct (member data "type") as [tag|]; [|done].
  destruct (isSensorData tag); [|done].
  destruct (member data "data") as [fields|]; [|done].
  by rewrite readyStateOf_broadcast.
Qed.

Lemma closeCall_onMessage deviceId message t1 t2 s h :
  closeCall <$> sockets (onMessage deviceId message t1 t2 s) !! h
  = closeCall <$> sockets s !! h.
Proof.
  unfold onMessage. destruct message as [data|]; [|done]. cbv zeta.
  destruct (member data "type") as [tag|]; [|done].
  destruct (isSensorData tag); [|done].
  destruct (member data "data") as [fields|]; [|done].
  by rewrite closeCall_broadcast.
Qed.

(** X1: no inbound frame, whatever its content and whoever sent it, closes
    or unregisters a connection or touches the device registry: both
    connection registries, the device registry, and the [readyState] and
    the [close] call of every socket are as before. *)
Theorem frames_never_disconnect s ws message t1 t2 :
  let s' := step (Message ws message t1 t2) s in
  iotDevices s' = iotDevices s /\
  webClients s' = webClients s /\
  registeredDevices s' = registeredDevices s /\
  (forall h, readyStateOf h s' = readyStateOf h s) /\
  (forall h, closeCall <$> sockets s' !! h = closeCall <$> sockets s !! h).
Proof.
  cbv zeta. simpl. destruct (listenersOf ws s) as [|deviceId|clientId];
    try done.
  destruct (onMessage_registries deviceId message t1 t2 s) as (H1 & H2 & H3).
  repeat split; try done.
  - intros h. apply readyStateOf_onMessage.
  - intros h. apply closeCall_onMessage.
Qed.

(** ** Sockets that are not open *)

Lemma isOpen_readyStateOf h s :
  isOpen h (sockets s) = bool_decide (readyStateOf h s = Some OPEN).
Proof.
  unfold isOpen, readyStateOf. destruct (sockets s !! h) as [sk|]; simpl.
  - apply bool_decide_ext. split; [by intros -> | by intros [= ->]].
  - done.
Qed.

Lemma isOpen_not_open h s rs :
  readyStateOf h s = Some rs -> rs ≠ OPEN -> isOpen h (sockets s) = false.
Proof.
  intros Hrs Hne. rewrite isOpen_readyStateOf, Hrs.
  apply bool_decide_eq_false_2. congruence.
Qed.

Lemma sentTo_broadcast_not_open data s h :
  isOpen h (sockets s) = false ->
  sentTo h (broadcastToWebClients data s) = sentTo h s.
Proof. intros Hc. rewrite sentTo_broadcast, Hc. apply app_nil_r. Qed.

Lemma sentTo_control_not_open s deviceId command v t1 t2 h :
  isOpen h (sockets s) = false ->
  sentTo h (control deviceId command v t1 t2 s).2 = sentTo h s.
Proof.
  intros Hc. unfold control. cbv zeta.
  destruct (converts v); cbn [negb]; [|done].
  change (iotDevices (log _ s)) with (iotDevices s).
  change (sockets (log _ s)) with (sockets s).
  destruct (iotDevices s !! deviceId) as [ws|]; [|done].
  destruct (isOpen ws (sockets s)) eqn:Hopen; [|done].
  assert (Hne : ws ≠ h) by congruence.
  assert (Hsend : sentTo h (send ws (commandMessage command v t1)
                              (log (LogWebCommand deviceId command v) s))
                  = sentTo h s).
  { rewrite sentTo_send. rewrite bool_decide_eq_false_2 by tauto.
    apply app_nil_r. }
  destruct (hasOwnProperty _ _) as [[]|]; cbn [snd]; [| |done].
  - rewrite sentTo_broadcast_not_open; [done |].
    change (sockets (with_deviceStates ?o ?x)) with (sockets x).
    by rewrite isOpen_send.
  - rewrite sentTo_broadcast_not_open; [done |]. by rewrite isOpen_send.
Qed.

Lemma sentTo_onMessage_not_open deviceId message t1 t2 s h :
  isOpen h (sockets s) = false ->
  sentTo h (onMessage deviceId message t1 t2 s) = sentTo h s.
Proof.
  intros Hc. unfold onMessage. destruct message as [data|]; [|done]. cbv zeta.
  destruct (member data "type") as [tag|]; [|done].
  destruct (isSensorData tag); [|done].
  destruct (member data "data") as [fields|]; [|done].
  by rewrite sentTo_broadcast_not_open.
Qed.

Lemma not_open_step ev s h rs :
  enabled ev s = true ->
  readyStateOf h s = Some rs -> rs ≠ OPEN ->
  sentTo h (step ev s) = sentTo h s /\
  exists rs', readyStateOf h (step ev s) = Some rs' /\ rs' ≠ OPEN.
Proof.
  intros Hen Hrs Hne.
  pose proof (isOpen_not_open h s rs Hrs Hne) as Hc.
  destruct ev as [ws ct did cid now|ws m t1 t2|ws|ws t1 t2|d c v t1 t2];
    simpl in Hen |- *.
  - apply bool_decide_eq_true in Hen.
    assert (Hws : ws ≠ h).
    { intros ->. unfold readyStateOf in Hrs. by rewrite Hen in Hrs. }
    split.
    + unfold sentTo. rewrite sockets_onConnection_ne by done.
      simpl. by rewrite lookup_insert_ne.
    + exists rs. split; [|done]. rewrite readyStateOf_onConnection by done.
      unfold readyStateOf in *. simpl. by rewrite lookup_insert_ne.
  - destruct (listenersOf ws s); eauto.
    split; [by apply sentTo_onMessage_not_open |].
    exists rs. by rewrite readyStateOf_onMessage.
  - apply bool_decide_eq_true in Hen.
    assert (Hws : ws ≠ h) by (intros ->; congruence).
    split.
    + unfold sentTo; simpl. by rewrite lookup_alter_ne.
    + exists rs. split; [|done]. unfold readyStateOf in *; simpl.
      by rewrite lookup_alter_ne.
  - set (s' := with_sockets _ s).
    assert (Hsent : sentTo h s' = sentTo h s).
    { unfold sentTo, s'; simpl. rewrite lookup_alter. case_decide; [subst|done].
      by destruct (sockets s !! h). }
    assert (Hrs' : exists rs', readyStateOf h s' = Some rs' /\ rs' ≠ OPEN).
    { unfold readyStateOf in *. unfold s'; simpl. rewrite lookup_alter.
      case_decide; [subst|eauto].
      destruct (sockets s !! h); simplify_eq/=. by exists CLOSED. }
    destruct Hrs' as (rs' & Hrs' & Hne').
    destruct (listenersOf ws s); [eauto | | eauto].
    unfold onDeviceClose. cbv zeta. split.
    + rewrite sentTo_broadcast_not_open; [done |].
      by apply (isOpen_not_open h s' rs').
    + exists rs'. by rewrite readyStateOf_broadcast.
  - split; [by apply sentTo_control_not_open |].
    exists rs. by rewrite control_readyStateOf.
Qed.

(** X2: the server never sends on a socket that is not open.  Once a socket
    has left the [OPEN] state (it is closing, was rejected, or ['close'] was
    emitted), no later event of any run adds a frame to what was sent to it;
    and it never becomes open again. *)
Theorem nothing_sent_unless_open evs s h rs :
  admissible evs s = true ->
  readyStateOf h s = Some rs -> rs ≠ OPEN ->
  sentTo h (run evs s) = sentTo h s /\
  isOpen h (sockets (run evs s)) = false.
Proof.
  revert s rs. induction evs as [|ev evs IH]; intros s rs Hadm Hrs Hne;
    simpl in *.
  - split; [done | by apply (isOpen_not_open h s rs)].
  - apply andb_true_iff in Hadm as [Hen Hadm].
    destruct (not_open_step ev s h rs Hen Hrs Hne) as (Hsent & rs' & Hrs' & Hne').
    destruct (IH (step ev s) rs' Hadm Hrs' Hne') as [H1 H2].
    split; [by rewrite H1 | done].
Qed.

Lemma nothing_sent_unless_open_witness :
  readyStateOf 1 (run [Closing 1] serving) = Some CLOSING /\
  sentTo 1 (run [Message 0 (Some temperatureFrame) "t1" "t2"; ledOn]
                (run [Closing 1] serving))
  = sentTo 1 (run [Closing 1] serving).
Proof.
  split; [reflexivity |].
  apply (nothing_sent_unless_open
           [Message 0 (Some temperatureFrame) "t1" "t2"; ledOn]
           (run [Closing 1] serving) 1 CLOSING);
    [reflexivity | reflexivity | discriminate].
Defined.

(** ** Who is in the registries *)

Lemma readyStateOf_step_closed ev s h :
  enabled ev s = true ->
  readyStateOf h (step ev s) = Some CLOSED ->
  readyStateOf h s = Some CLOSED \/ exists t1 t2, ev = Close h t1 t2.
Proof.
  intros Hen Hc.
  destruct ev as [ws ct did cid now|ws m t1 t2|ws|ws t1 t2|d c v t1 t2];
    simpl in Hen, Hc.
  - destruct (decide (ws = h)) as [->|Hne].
    + exfalso. revert Hc. unfold readyStateOf, onConnection, acceptDevice,
        acceptWeb, reject, attach, send.
      repeat case_match; simpl;
        rewrite ?lookup_alter_eq, lookup_insert_eq; simpl; discriminate.
    + left. rewrite readyStateOf_onConnection in Hc by done.
      unfold readyStateOf in *. simpl in Hc. by rewrite lookup_insert_ne in Hc.
  - left. destruct (listenersOf ws s); try done.
    by rewrite readyStateOf_onMessage in Hc.
  - unfold readyStateOf in *; simpl in Hc. rewrite lookup_alter in Hc.
    case_decide; [subst | by left].
    destruct (sockets s !! h); simplify_eq/=.
  - destruct (decide (ws = h)) as [->|Hne]; [right; eauto | left].
    assert (Hpre : readyStateOf h
                     (with_sockets (alter (with_readyState CLOSED) ws
                                          (sockets s)) s) = readyStateOf h s).
    { unfold readyStateOf; simpl. by rewrite lookup_alter_ne. }
    destruct (listenersOf ws s).
    + by rewrite <- Hpre.
    + unfold onDeviceClose in Hc. cbv zeta in Hc.
      rewrite readyStateOf_broadcast in Hc. by rewrite <- Hpre.
    + by rewrite <- Hpre.
  - left. by rewrite control_readyStateOf in Hc.
Qed.

Lemma registered_step_inv ev s k h :
  enabled ev s = true ->
  iotDevices (step ev s) !! k = Some h \/ webClients (step ev s) !! k = Some h ->
  iotDevices s !! k = Some h \/ webClients s !! k = Some h \/
  sockets s !! h = None.
Proof.
  intros Hen. rewrite iotDevices_step, webClients_step.
  destruct ev as [ws ct did cid now|ws m t1 t2|ws|ws t1 t2|d c v t1 t2];
    try tauto.
  - simpl in Hen. apply bool_decide_eq_true in Hen.
    destruct (_ && _).
    + rewrite lookup_insert. case_decide; [|tauto].
      intros [[= <-]|?]; tauto.
    + destruct (bool_decide (ct = Some "web")); [|tauto].
      rewrite lookup_insert. case_decide; [|tauto].
      intros [?|[= <-]]; tauto.
  - destruct (listenersOf ws s); try tauto.
    + rewrite lookup_delete_Some. tauto.
    + rewrite lookup_delete_Some. tauto.
Qed.

Lemma registered_not_closed_step ev s :
  enabled ev s = true ->
  registriesConsistent s ->
  (forall k h, iotDevices s !! k = Some h \/ webClients s !! k = Some h ->
               readyStateOf h s ≠ Some CLOSED) ->
  forall k h,
    iotDevices (step ev s) !! k = Some h \/ webClients (step ev s) !! k = Some h ->
    readyStateOf h (step ev s) ≠ Some CLOSED.
Proof.
  intros Hen [Hd Hw] IH k h Hk Hc.
  pose proof (registered_step_inv ev s k h Hen Hk) as Hold.
  destruct (readyStateOf_step_closed ev s h Hen Hc) as [Hc'|(t1 & t2 & ->)].
  - destruct Hold as [Ho|[Ho|Ho]].
    + by apply (IH k h); [left |].
    + by apply (IH k h); [right |].
    + unfold readyStateOf in Hc'. by rewrite Ho in Hc'.
  - rewrite iotDevices_step, webClients_step in Hk.
    destruct Hold as [Ho|[Ho|Ho]].
    + rewrite (Hd _ _ Ho) in Hk. rewrite lookup_delete_eq in Hk.
      destruct Hk as [Hk|Hk]; [done |].
      apply Hw in Hk. apply Hd in Ho. congruence.
    + rewrite (Hw _ _ Ho) in Hk. rewrite lookup_delete_eq in Hk.
      destruct Hk as [Hk|Hk]; [|done].
      apply Hd in Hk. apply Hw in Ho. congruence.
    + simpl in Hen. unfold readyStateOf in Hen. by rewrite Ho in Hen.
Qed.

Lemma registered_live s k h :
  reachable s ->
  iotDevices s !! k = Some h \/ webClients s !! k = Some h ->
  exists rs, readyStateOf h s = Some rs /\ rs ≠ CLOSED.
Proof.
  intros Hs Hk.
  assert (Hnc : readyStateOf h s ≠ Some CLOSED).
  { revert k h Hk. induction Hs as [t0|ev s Hs IH Hen]; intros k h Hk.
    - simpl in Hk. rewrite !lookup_empty in Hk. by destruct Hk.
    - by apply (registered_not_closed_step ev s Hen
                  (reachable_consistent s Hs) IH k h). }
  assert (His : is_Some (sockets s !! h)).
  { destruct (registered_is_Some s (reachable_consistent s Hs)) as [Hw Hd].
    destruct Hk as [Hk|Hk]; eauto. }
  destruct His as [sk Hsk]. exists (readyState sk).
  unfold readyStateOf in *. rewrite Hsk in *. simpl in *.
  split; [done | congruence].
Qed.

(** X3: the registries never hold a connection on which ['close'] has been
    emitted: in every state the server can reach, the socket of every entry
    of [iotDevices] and of [webClients] exists and is not [CLOSED]. *)
Theorem registered_not_closed s k h :
  reachable s ->
  iotDevices s !! k = Some h \/ webClients s !! k = Some h ->
  exists rs, readyStateOf h s = Some rs /\ rs ≠ CLOSED.
Proof. apply registered_live. Qed.

Lemma registered_not_closed_witness :
  reachable serving /\
  exists rs, readyStateOf 0 serving = Some rs /\ rs ≠ CLOSED.
Proof.
  assert (Hr : reachable serving).
  { apply (reachable_run [kitchenConnects; dashboardConnects] started);
      [apply reachable_initial | reflexivity]. }
  split; [exact Hr |].
  apply (registered_not_closed serving "device_001" 0 Hr). left. reflexivity.
Defined.

(** X4: a connection is held by at most one entry: in every reachable state
    no two identifiers of [iotDevices] hold the same connection, no two
    identifiers of [webClients] do, and no connection is in both
    registries. *)
Theorem one_entry_per_connection s :
  reachable s ->
  (forall k k' h, iotDevices s !! k = Some h -> iotDevices s !! k' = Some h ->
                  k = k') /\
  (forall k k' h, webClients s !! k = Some h -> webClients s !! k' = Some h ->
                  k = k') /\
  (forall k k' h, iotDevices s !! k = Some h -> webClients s !! k' ≠ Some h).
Proof.
  intros Hs. destruct (reachable_consistent s Hs) as [Hd Hw].
  split; [|split].
  - intros k k' h H1 H2. apply Hd in H1, H2. congruence.
  - intros k k' h H1 H2. apply Hw in H1, H2. congruence.
  - intros k k' h H1 H2. apply Hd in H1. apply Hw in H2. congruence.
Qed.

Lemma one_entry_per_connection_witness :
  reachable serving /\ webClients serving !! "device_001" ≠ Some 0.
Proof.
  assert (Hr : reachable serving).
  { apply (reachable_run [kitchenConnects; dashboardConnects] started);
      [apply reachable_initial | reflexivity]. }
  split; [exact Hr |].
  apply (proj2 (proj2 (one_entry_per_connection serving Hr)) "device_001").
  reflexivity.
Defined.

(** ** The counts of the health endpoint *)

Lemma size_map_img_inj (m : gmap string handle) :
  (forall k k' h, m !! k = Some h -> m !! k' = Some h -> k = k') ->
  size (map_img m : gset handle) = size m.
Proof.
  induction m as [|i x m Hi IH] using map_ind; intros Hinj.
  - by rewrite map_img_empty_L, size_empty, map_size_empty.
  - rewrite map_img_insert_notin_L by done.
    rewrite size_union, size_singleton, map_size_insert_None by
      (done || (apply disjoint_singleton_l; intros Hx;
                apply elem_of_map_img in Hx as [j Hj];
                assert (j = i) as ->
                  by (apply (Hinj j i x);
                      [rewrite lookup_insert_ne; [done | congruence]
                      | apply lookup_insert_eq]);
                congruence)).
    rewrite IH; [done |].
    intros k k' h Hk Hk'. apply (Hinj k k' h).
    + rewrite lookup_insert_ne; [done | congruence].
    + rewrite lookup_insert_ne; [done | congruence].
Qed.

Lemma elem_of_liveSockets s h :
  h ∈ liveSockets s <->
  exists rs, readyStateOf h s = Some rs /\ rs ≠ CLOSED.
Proof.
  unfold liveSockets, readyStateOf. rewrite elem_of_dom. split.
  - intros [sk Hsk]. apply map_lookup_filter_Some in Hsk as [Hsk Hns].
    exists (readyState sk). by rewrite Hsk.
  - intros (rs & Hrs & Hns). apply fmap_Some in Hrs as (sk & Hsk & ->).
    exists sk. by apply map_lookup_filter_Some.
Qed.

(** X5: the health endpoint never reports more connections than there are
    live sockets: in every reachable state [connectedDevices] plus
    [connectedClients] is at most the number of sockets on which ['close']
    has not been emitted. *)
Theorem health_counts_bounded s :
  reachable s ->
  connectedDevices s + connectedClients s <= size (liveSockets s).
Proof.
  intros Hs. destruct (reachable_consistent s Hs) as [Hd Hw].
  unfold connectedDevices, connectedClients.
  rewrite <- (size_map_img_inj (iotDevices s)), <- (size_map_img_inj (webClients s)).
  - rewrite <- size_union.
    + apply subseteq_size. intros h Hh. apply elem_of_liveSockets.
      apply elem_of_union in Hh as [Hh|Hh];
        apply elem_of_map_img in Hh as [k Hk];
        apply (registered_live s k h Hs); tauto.
    + intros h H1 H2. apply elem_of_map_img in H1 as [k H1].
      apply elem_of_map_img in H2 as [k' H2].
      apply Hd in H1. apply Hw in H2. congruence.
  - intros k k' h H1 H2. apply Hw in H1, H2. congruence.
  - intros k k' h H1 H2. apply Hd in H1, H2. congruence.
Qed.

Lemma health_counts_bounded_witness :
  reachable serving /\
  connectedDevices serving + connectedClients serving <= size (liveSockets serving).
Proof.
  assert (Hr : reachable serving).
  { apply (reachable_run [kitchenConnects; dashboardConnects] started);
      [apply reachable_initial | reflexivity]. }
  split; [exact Hr | apply (health_counts_bounded serving Hr)].
Defined.

(** ** Accepted connections *)






(** ** Sensor reports in general *)



(** ** Commands and the fields of the snapshot *)

(** X9: a command never creates or deletes a property of the shared
    state: whatever the device, the command name and the value, and whether
    or not the command succeeds, [deviceStates] has the own properties it
    had.  A command with a value removes no field from the served snapshot
    (a property that held [undefined] is served again once it is set); a
    command without a value adds none (the property it sets holds
    [undefined] and is no longer served). *)
Theorem command_never_adds_field s deviceId command v t1 t2 :
  let s' := (control deviceId command v t1 t2 s).2 in
  ownKeys (deviceStates s') = ownKeys (deviceStates s) /\
  (is_Some v -> dom (getSnapshot s) ⊆ dom (getSnapshot s')) /\
  (v = None -> dom (getSnapshot s') ⊆ dom (getSnapshot s)).
Proof.
  cbv zeta. split; [apply ownKeys_control |].
  unfold control, getSnapshot. cbv zeta.
  destruct (converts v); cbn [negb]; [|done].
  destruct (iotDevices _ !! deviceId) as [ws|]; [|done].
  destruct (isOpen _ _); [|done].
  destruct (hasOwnProperty _ _) as [[]|] eqn:E; simpl; try done.
  split.
  - intros [x ->] k Hk. apply elem_of_dom. apply elem_of_dom in Hk.
    by apply own_set_mono.
  - intros -> k Hk. apply elem_of_dom in Hk as [x Hx]. apply elem_of_dom.
    destruct (decide (command = k)) as [->|Hne].
    + apply hasOwnProperty_Some in E as [_ E].
      rewrite own_set_existing in Hx by done. discriminate Hx.
    + rewrite own_set_other in Hx by done. eauto.
Qed.

Lemma command_never_adds_field_witness :
  let s' := (control "device_001" "led" None "t1" "t2" serving).2 in
  getSnapshot serving !! "led" = Some (JBool false) /\
  getSnapshot s' !! "led" = None /\
  ownKeys (deviceStates s') = ownKeys (deviceStates serving).
Proof.
  cbv zeta. split; [reflexivity |]. split; [reflexivity |].
  exact (proj1 (command_never_adds_field serving "device_001" "led" None
                  "t1" "t2")).
Defined.

(** X10: a command whose name is not an own property of the shared state is
    not an error: with a value that converts to a string, the device
    connected and open, and [hasOwnProperty] the built-in, the answer is the
    success answer, the device is sent the command frame, every open
    dashboard is sent one [stateUpdate] frame, and the shared state is
    exactly as before. *)
Theorem unknown_command_forwarded s deviceId command v t1 t2 ws :
  reachable s ->
  converts v = true ->
  iotDevices s !! deviceId = Some ws ->
  isOpen ws (sockets s) = true ->
  resolves_hasOwnProperty (deviceStates s) = true ->
  has_own (deviceStates s) command = false ->
  let r := control deviceId command v t1 t2 s in
  r.1 = Json 200 (commandSent deviceId command v) /\
  deviceStates r.2 = deviceStates s /\
  sentTo ws r.2 = (sentTo ws s ++ [commandMessage command v t1])%list /\
  (forall c h, webClients s !! c = Some h ->
     sentTo h r.2
     = (sentTo h s ++ if isOpen h (sockets s)
                      then [stateUpdate deviceId command v t2] else [])%list).
Proof.
  intros Hs Hv Hdev Hopen Hres Hnone.
  destruct (control_success s deviceId command v t1 t2 ws Hv
              (reachable_consistent s Hs) Hdev Hopen Hres)
    as (Hr & Hsent & _ & _ & Hweb & _).
  cbv zeta. split; [done |]. split; [|split; done].
  unfold control. cbv zeta. rewrite Hv. cbn [negb].
  change (iotDevices (log _ s)) with (iotDevices s). rewrite Hdev.
  change (sockets (log _ s)) with (sockets s). rewrite Hopen.
  change (deviceStates (send _ _ _)) with (deviceStates s).
  unfold hasOwnProperty. rewrite Hres, Hnone. done.
Qed.

Lemma unknown_command_forwarded_witness :
  let r := control "device_001" "buzzer" (Some (JBool true))
             "2024-05-01T10:00:04.000Z" "2024-05-01T10:00:04.001Z" serving in
  reachable serving /\
  r.1 = Json 200
          (JObj (<["success" := JBool true]>
                (<["message" := JStr "Command sent to device_001"]>
                (<["command" := JStr "buzzer"]>
                (<["value" := JBool true]> ∅))))) /\
  deviceStates r.2 = deviceStates serving /\
  sentTo 0 r.2
  = (sentTo 0 serving ++
     [JObj (<["type" := JStr "command"]> (<["command" := JStr "buzzer"]>
           (<["value" := JBool true]>
           (<["timestamp" := JStr "2024-05-01T10:00:04.000Z"]> ∅))))])%list /\
  sentTo 1 r.2
  = (sentTo 1 serving ++
     [JObj (<["type" := JStr "stateUpdate"]>
           (<["deviceId" := JStr "device_001"]>
           (<["command" := JStr "buzzer"]> (<["value" := JBool true]>
           (<["timestamp" := JStr "2024-05-01T10:00:04.001Z"]> ∅)))))])%list.
Proof.
  cbv zeta.
  assert (Hr : reachable serving).
  { apply (reachable_run [kitchenConnects; dashboardConnects] started);
      [apply reachable_initial | reflexivity]. }
  destruct (unknown_command_forwarded serving "device_001" "buzzer"
              (Some (JBool true))
              "2024-05-01T10:00:04.000Z" "2024-05-01T10:00:04.001Z" 0
              Hr eq_refl eq_refl eq_refl eq_refl eq_refl)
    as (Hanswer & Hstate & Hdevice & Hweb).
  split; [exact Hr |]. split; [exact Hanswer |]. split; [exact Hstate |].
  split; [exact Hdevice |]. exact (Hweb "k3x9q" 1 eq_refl).
Defined.

(** ** The device registry in every reachable state *)

Lemma registeredDevices_step ev s :
  registeredDevices (step ev s) = registeredDevices s \/
  exists deviceId on t,
    registeredDevices (step ev s)
    = updateStatus deviceId on t (registeredDevices s).
Proof.
  destruct ev as [ws ct did cid now|ws m t1 t2|ws|ws t1 t2|d c v t1 t2];
    simpl.
  - unfold onConnection.
    destruct (_ && _); [right; by eexists _, _, _ |].
    destruct (bool_decide _); by left.
  - left. destruct (listenersOf ws s); try done. apply onMessage_registries.
  - by left.
  - destruct (listenersOf ws s); [by left | right; by eexists _, _, _ | by left].
  - left. apply control_registries.
Qed.

Lemma identity_updateStatus deviceId on t l :
  identity <$> updateStatus deviceId on t l = identity <$> l.
Proof.
  induction l as [|d l IH]; [done |]. cbn [updateStatus].
  case_bool_decide; rewrite !fmap_cons; [done | by rewrite IH].
Qed.

Lemma Forall_updateStatus (P : DeviceRecord -> Prop) deviceId on t l :
  (forall d, P (setStatus on t d)) ->
  Forall P l -> Forall P (updateStatus deviceId on t l).
Proof.
  intros HP. induction 1 as [|d l Hd Hl IH]; simpl; [done |].
  case_bool_decide; constructor; auto.
Qed.

(** X11: the device registry is fixed: in every reachable state it lists
    the two records of the initialiser, in the same order, with the same
    [id], [name], [type] and [location]; no event adds, removes or renames a
    record, whoever connects. *)
Theorem registry_is_fixed s :
  reachable s ->
  identity <$> registeredDevices s = identity <$> initialDevices.
Proof.
  induction 1 as [t0|ev s _ IH _]; [done |].
  destruct (registeredDevices_step ev s) as [->|(d & on & t & ->)];
    [done | by rewrite identity_updateStatus].
Qed.

Lemma registry_is_fixed_witness :
  reachable serving /\
  identity <$> registeredDevices serving = identity <$> initialDevices.
Proof.
  assert (Hr : reachable serving).
  { apply (reachable_run [kitchenConnects; dashboardConnects] started);
      [apply reachable_initial | reflexivity]. }
  split; [exact Hr | apply (registry_is_fixed serving Hr)].
Defined.

(** X12: a record is never online without a [lastSeen]: in every reachable
    state, a record whose [online] flag is [true] has a [lastSeen] time (a
    record whose [lastSeen] is [null] is offline). *)
Theorem online_has_lastSeen s d :
  reachable s ->
  d ∈ registeredDevices s ->
  online d = true -> is_Some (lastSeen d).
Proof.
  intros Hs.
  assert (HF : Forall (fun d => online d = true -> is_Some (lastSeen d))
                      (registeredDevices s)).
  { induction Hs as [t0|ev s _ IH _].
    - repeat constructor; simpl; discriminate.
    - destruct (registeredDevices_step ev s) as [->|(i & on & t & ->)];
        [done |].
      apply Forall_updateStatus; [|done]. intros d0 _. simpl. eauto. }
  rewrite Forall_forall in HF. apply HF.
Qed.

Lemma online_has_lastSeen_witness :
  reachable serving /\
  is_Some (lastSeen (setStatus true "2024-05-01T10:00:01.000Z"
                       {| id := "device_001"; name := "Kitchen Sensor";
                          type := "sensor"; location := "Kitchen";
                          online := false; lastSeen := None |})).
Proof.
  assert (Hr : reachable serving).
  { apply (reachable_run [kitchenConnects; dashboardConnects] started);
      [apply reachable_initial | reflexivity]. }
  split; [exact Hr |].
  apply (online_has_lastSeen serving _ Hr); [left | reflexivity].
Defined.

(** ** A broken command path stays broken *)

Lemma commandPathBroken_set (o : object) k (w : option value) :
  commandPathBroken o -> commandPathBroken (JS.set o k w).
Proof.
  intros [Hown|Hnull].
  - left. by apply has_own_set.
  - right. unfold JS.set, reaches_proto_accessor. rewrite Hnull.
    destruct (has_own o "__proto__"); rewrite ?andb_false_r;
      by destruct w.
Qed.

Lemma commandPathBroken_assign (o : object) src :
  commandPathBroken o -> commandPathBroken (assign o src).
Proof.
  intros Hb. unfold assign.
  apply (map_fold_weak_ind (fun r _ => commandPathBroken r)); [done |].
  intros i x m r _ IH. by apply commandPathBroken_set.
Qed.

Lemma commandPathBroken_step ev s :
  commandPathBroken (deviceStates s) ->
  commandPathBroken (deviceStates (step ev s)).
Proof.
  intros Hb.
  destruct ev as [ws ct did cid now|ws m t1 t2|ws|ws t1 t2|d c v t1 t2]; simpl.
  - unfold onConnection, acceptDevice, acceptWeb, reject.
    by repeat case_match.
  - destruct (listenersOf ws s); try done.
    unfold onMessage. destruct m as [data|]; [|done]. cbv zeta.
    destruct (member data "type") as [tag|]; [|done].
    destruct (isSensorData tag); [|done].
    destruct (member data "data") as [fields|]; [|done].
    simpl. unfold merge. by apply commandPathBroken_set, commandPathBroken_assign.
  - done.
  - by destruct (listenersOf ws s).
  - unfold control. cbv zeta.
    destruct (converts v); cbn [negb]; [|done].
    destruct (iotDevices _ !! d) as [ws|]; [|done].
    destruct (isOpen _ _); [|done].
    destruct (hasOwnProperty _ _) as [[]|]; simpl; try done.
    by apply commandPathBroken_set.
Qed.

Lemma commandPathBroken_run evs s :
  commandPathBroken (deviceStates s) ->
  commandPathBroken (deviceStates (run evs s)).
Proof.
  revert s. induction evs as [|ev evs IH]; intros s Hb; simpl; [done |].
  by apply IH, commandPathBroken_step.
Qed.

Lemma commandPathBroken_throws (o : object) k :
  commandPathBroken o -> hasOwnProperty o k = None.
Proof.
  intros [Hown|Hnull]; unfold hasOwnProperty, resolves_hasOwnProperty.
  - by rewrite Hown.
  - rewrite Hnull. by destruct (has_own o "hasOwnProperty").
Qed.

(** X13: there is no recovery from a shadowed [hasOwnProperty].  Once
    [deviceStates] has an own property named [hasOwnProperty] (a device
    reported a field of that name) or a [null] prototype (a device reported
    [{"__proto__": null}]), it stays so after every run of events.  In every
    such later state a command to a connected, open device is never
    answered and never writes the shared state; if its value converts to a
    string, the command frame was sent to the device before the handler
    threw, otherwise nothing was sent; and no other socket is sent
    anything. *)
Theorem broken_command_path_stays_broken evs s deviceId command v t1 t2 ws :
  commandPathBroken (deviceStates s) ->
  let s' := run evs s in
  commandPathBroken (deviceStates s') /\
  (iotDevices s' !! deviceId = Some ws ->
   isOpen ws (sockets s') = true ->
   let r := control deviceId command v t1 t2 s' in
   r.1 = Uncaught /\
   deviceStates r.2 = deviceStates s' /\
   sentTo ws r.2
   = (sentTo ws s' ++ if converts v then [commandMessage command v t1]
                      else [])%list /\
   (forall h, h ≠ ws -> sentTo h r.2 = sentTo h s')).
Proof.
  intros Hb. cbv zeta.
  pose proof (commandPathBroken_run evs s Hb) as Hb'.
  split; [exact Hb' |]. intros Hdev Hopen.
  unfold control. cbv zeta.
  destruct (converts v); cbn [negb].
  2: { split; [done |]. split; [done |].
       split; [symmetry; apply app_nil_r | done]. }
  change (iotDevices (log _ ?x)) with (iotDevices x). rewrite Hdev.
  change (sockets (log _ ?x)) with (sockets x). rewrite Hopen.
  change (deviceStates (send _ _ (log _ ?x))) with (deviceStates x).
  rewrite commandPathBroken_throws by done. cbn [fst snd].
  split; [done |]. split; [done |]. split.
  - rewrite sentTo_send. change (sentTo ws (log _ ?x)) with (sentTo ws x).
    rewrite bool_decide_eq_true_2; [done |]. split; [done |].
    change (sockets (log _ ?x)) with (sockets x).
    unfold isOpen in Hopen. destruct (sockets (run evs s) !! ws); [eauto | done].
  - intros h Hne. rewrite sentTo_send.
    change (sentTo h (log _ ?x)) with (sentTo h x).
    rewrite bool_decide_eq_false_2 by (intros [? _]; congruence).
    apply app_nil_r.
Qed.

Lemma broken_command_path_stays_broken_witness :
  let s := run [shadowingReport] serving in
  let s' := run [Message 0 (Some temperatureFrame) "t1" "t2"] s in
  let r := control "device_001" "pump" (Some (JBool true))
             "2024-05-01T10:00:04.000Z" "2024-05-01T10:00:04.001Z" s' in
  commandPathBroken (deviceStates s) /\
  commandPathBroken (deviceStates s') /\
  r.1 = Uncaught /\
  deviceStates r.2 = deviceStates s' /\
  sentTo 0 r.2
  = (sentTo 0 s' ++
     [JObj (<["type" := JStr "command"]> (<["command" := JStr "pump"]>
           (<["value" := JBool true]>
           (<["timestamp" := JStr "2024-05-01T10:00:04.000Z"]> ∅))))])%list.
Proof.
  cbv zeta.
  assert (Hb : commandPathBroken (deviceStates (run [shadowingReport] serving)))
    by (left; reflexivity).
  destruct (broken_command_path_stays_broken
              [Message 0 (Some temperatureFrame) "t1" "t2"]
              (run [shadowingReport] serving) "device_001" "pump"
              (Some (JBool true))
              "2024-05-01T10:00:04.000Z" "2024-05-01T10:00:04.001Z" 0 Hb)
    as [Hb' Hcommand].
  destruct (Hcommand eq_refl eq_refl) as (Hanswer & Hstate & Hsent & _).
  split; [exact Hb |]. split; [exact Hb' |]. split; [exact Hanswer |].
  split; [exact Hstate |]. exact Hsent.
Defined.

(** The two reports that break the command path. *)
Lemma report_breaks_command_path (o : object) fields t v :
  own_enumerable fields !! "hasOwnProperty" = Some v ->
  commandPathBroken (merge fields t o).
Proof.
  intros Hf. left. apply has_own_own. rewrite own_merge_ne by done.
  rewrite lookup_union, Hf. by destruct (own o !! "hasOwnProperty").
Qed.

(** ** Properties are never removed *)

Lemma getSnapshot_step_kept ev s k :
  is_Some (getSnapshot s !! k) ->
  getSnapshot (step ev s) !! k = None ->
  exists deviceId t1 t2, ev = Control deviceId k None t1 t2.
Proof.
  intros [x Hx]. unfold getSnapshot in *.
  assert (Hkept : own (deviceStates s) !! k = None ->
                  exists deviceId t1 t2, ev = Control deviceId k None t1 t2)
    by congruence.
  destruct ev as [ws ct did cid now|ws m t1 t2|ws|ws t1 t2|d c v t1 t2]; simpl.
  - unfold onConnection, acceptDevice, acceptWeb, reject.
    repeat case_match; exact Hkept.
  - destruct (listenersOf ws s); try exact Hkept.
    unfold onMessage. destruct m as [data|]; [|exact Hkept]. cbv zeta.
    destruct (member data "type") as [tag|]; [|exact Hkept].
    destruct (isSensorData tag); [|exact Hkept].
    destruct (member data "data") as [fields|]; [|exact Hkept].
    intros Hnone.
    destruct (own_merge_mono (deviceStates s) fields t1 k) as [y Hy]; [eauto |].
    change (own (merge fields t1 (deviceStates s)) !! k = None) in Hnone.
    congruence.
  - exact Hkept.
  - destruct (listenersOf ws s); exact Hkept.
  - unfold control. cbv zeta.
    destruct (converts v); cbn [negb]; [|exact Hkept].
    destruct (iotDevices _ !! d) as [ws|]; [|exact Hkept].
    destruct (isOpen _ _); [|exact Hkept].
    destruct (hasOwnProperty _ _) as [[]|]; simpl; try exact Hkept.
    intros Hnone. destruct (decide (c = k)) as [->|Hne].
    + destruct v as [y|]; [|by eexists _, _, _].
      destruct (own_set_mono (deviceStates s) k y k) as [z Hz]; [eauto |].
      congruence.
    + rewrite own_set_other in Hnone by done. congruence.
Qed.

(** X14: no event removes an own property of the shared state: a name that
    is an own property of [deviceStates] is still one after any run of
    events; in particular the seven fields of the initialiser are own
    properties in every reachable state.  A field leaves the served snapshot
    in one way only: by a command of that name without a value, which sets
    the property to [undefined]. *)
Theorem properties_never_removed s :
  (forall evs, ownKeys (deviceStates s) ⊆ ownKeys (deviceStates (run evs s))) /\
  (reachable s -> forall k, k ∈ initialKeys -> k ∈ ownKeys (deviceStates s)) /\
  (forall ev k,
     is_Some (getSnapshot s !! k) -> getSnapshot (step ev s) !! k = None ->
     exists deviceId t1 t2, ev = Control deviceId k None t1 t2).
Proof.
  split; [|split].
  - intros evs. apply ownKeys_run.
  - intros Hs k Hk. by apply has_own_true, reachable_initialKeys.
  - intros ev k. apply getSnapshot_step_kept.
Qed.

Lemma properties_never_removed_witness :
  let s' := run [Control "device_001" "pump" None "t1" "t2"] serving in
  getSnapshot serving !! "pump" = Some (JBool false) /\
  getSnapshot s' !! "pump" = None /\
  "pump" ∈ ownKeys (deviceStates s').
Proof.
  cbv zeta. split; [reflexivity |]. split; [reflexivity |].
  apply (proj1 (properties_never_removed serving)
           [Control "device_001" "pump" None "t1" "t2"]).
  apply has_own_true. reflexivity.
Defined.

(** ** Connect, then close *)

(** X15: registering and unregistering a device go by identifier alone.
    After a device connects under an identifier and its connection is
    closed, [iotDevices] is what it was before with that identifier removed:
    unchanged if the identifier was free, and without the entry of an
    earlier connection if one held the identifier.  [webClients] is
    untouched. *)
Theorem device_connect_close s ws deviceId cid now t1 t2 :
  deviceId ≠ "" ->
  enabled (Connection ws (Some "device") (Some deviceId) cid now) s = true ->
  let s2 := step (Close ws t1 t2)
              (step (Connection ws (Some "device") (Some deviceId) cid now) s) in
  iotDevices s2 = delete deviceId (iotDevices s) /\
  (iotDevices s !! deviceId = None -> iotDevices s2 = iotDevices s) /\
  webClients s2 = webClients s.
Proof.
  intros Hne Hfresh. cbv zeta.
  rewrite iotDevices_step, webClients_step.
  assert (Hl : listenersOf ws
                 (step (Connection ws (Some "device") (Some deviceId) cid now) s)
               = DeviceListeners deviceId).
  { simpl. rewrite listenersOf_onConnection
      by (simpl; rewrite lookup_insert_eq; eauto).
    simpl. by rewrite bool_decide_eq_false_2. }
  rewrite Hl, iotDevices_step, webClients_step. simpl.
  rewrite bool_decide_eq_false_2 by done. simpl.
  rewrite delete_insert_eq. split; [done |]. split; [|done].
  apply delete_id.
Qed.

Lemma device_connect_close_witness :
  "device_002" ≠ "" /\
  iotDevices (step (Close 2 "t1" "t2")
                (step (Connection 2 (Some "device") (Some "device_002") "" "t0")
                      serving))
  = delete "device_002" (iotDevices serving).
Proof.
  assert (Hid : "device_002" ≠ "") by discriminate.
  split; [exact Hid |].
  exact (proj1 (device_connect_close serving 2 "device_002" "" "t0" "t1" "t2"
                  Hid eq_refl)).
Defined.

Lemma step_close_web s ws clientId t1 t2 :
  listenersOf ws s = WebListeners clientId ->
  step (Close ws t1 t2) s
  = onWebClose clientId
      (with_sockets (alter (with_readyState CLOSED) ws (sockets s)) s).
Proof. intros Hl. simpl. by rewrite Hl. Qed.

(** X16: the same for a dashboard: after it connects under a client
    identifier and its connection is closed, [webClients] is what it was
    before with that identifier removed (so a dashboard that held the same
    identifier loses its entry); nothing is sent to anyone on the close, the
    device registry and the shared state are untouched. *)
Theorem dashboard_connect_close s ws did cid now t1 t2 :
  enabled (Connection ws (Some "web") did cid now) s = true ->
  let s1 := step (Connection ws (Some "web") did cid now) s in
  let s2 := step (Close ws t1 t2) s1 in
  webClients s2 = delete cid (webClients s) /\
  (webClients s !! cid = None -> webClients s2 = webClients s) /\
  iotDevices s2 = iotDevices s /\
  (forall h, sentTo h s2 = sentTo h s1) /\
  registeredDevices s2 = registeredDevices s /\
  deviceStates s2 = deviceStates s.
Proof.
  intros Hfresh. cbv zeta.
  assert (Hl : listenersOf ws (step (Connection ws (Some "web") did cid now) s)
               = WebListeners cid).
  { simpl. rewrite listenersOf_onConnection
      by (simpl; rewrite lookup_insert_eq; eauto).
    reflexivity. }
  split; [|split; [|split; [|split]]].
  - rewrite webClients_step, Hl, webClients_step. simpl.
    apply delete_insert_eq.
  - intros Hnone. rewrite webClients_step, Hl, webClients_step. simpl.
    rewrite delete_insert_eq. by apply delete_id.
  - rewrite iotDevices_step, Hl, iotDevices_step. reflexivity.
  - intros h. rewrite (step_close_web _ _ cid) by done.
    unfold onWebClose, sentTo. simpl.
    rewrite lookup_alter. case_decide; [subst|done].
    by destruct (_ !! h).
  - rewrite (step_close_web _ _ cid) by done. split; reflexivity.
Qed.

Lemma dashboard_connect_close_witness :
  enabled (Connection 2 (Some "web") None "q7" "t0") serving = true /\
  webClients (step (Close 2 "t1" "t2")
                (step (Connection 2 (Some "web") None "q7" "t0") serving))
  = delete "q7" (webClients serving).
Proof.
  split; [reflexivity |].
  exact (proj1 (dashboard_connect_close serving 2 None "q7" "t0" "t1" "t2"
                  eq_refl)).
Defined.

(** ** The broadcast to devices *)

Lemma sentTo_broadcastToIotDevices data s h :
  sentTo h (broadcastToIotDevices data s)
  = (sentTo h s ++ if isOpen h (sockets s)
                   then replicate (entriesOf h (iotDevices s)) data
                   else [])%list.
Proof.
  unfold sentTo, broadcastToIotDevices; simpl.
  rewrite map_fold_foldr, fold_sendIfOpen_lookup. unfold isOpen.
  destruct (sockets s !! h) as [sk|]; simpl; [|done].
  case_bool_decide; simpl; [apply sent_pushes | by rewrite app_nil_r].
Qed.

(** X17: [broadcastToIotDevices] sends the frame exactly once to every
    device connection of [iotDevices] that is open, and to nobody else:
    closed or closing devices, dashboards and unregistered sockets are sent
    nothing.  It changes neither the registries nor the shared state. *)
Theorem broadcast_to_devices s data :
  reachable s ->
  let s' := broadcastToIotDevices data s in
  (forall d h, iotDevices s !! d = Some h ->
     sentTo h s'
     = (sentTo h s ++ if isOpen h (sockets s) then [data] else [])%list) /\
  (forall h, (forall d, iotDevices s !! d ≠ Some h) -> sentTo h s' = sentTo h s) /\
  iotDevices s' = iotDevices s /\
  webClients s' = webClients s /\
  deviceStates s' = deviceStates s /\
  registeredDevices s' = registeredDevices s.
Proof.
  intros Hs. destruct (reachable_consistent s Hs) as [Hd _]. cbv zeta.
  split; [|split; [|done]].
  - intros d h Hh. rewrite sentTo_broadcastToIotDevices.
    rewrite (entriesOf_one h _ d); [done | done |].
    intros d' Hh'. apply Hd in Hh, Hh'. congruence.
  - intros h Hno. rewrite sentTo_broadcastToIotDevices.
    rewrite entriesOf_none by done. destruct (isOpen _ _); apply app_nil_r.
Qed.

Lemma broadcast_to_devices_witness :
  reachable serving /\
  sentTo 0 (broadcastToIotDevices (JStr "reboot") serving)
  = (sentTo 0 serving ++ [JStr "reboot"])%list.
Proof.
  assert (Hr : reachable serving).
  { apply (reachable_run [kitchenConnects; dashboardConnects] started);
      [apply reachable_initial | reflexivity]. }
  split; [exact Hr |].
  exact (proj1 (broadcast_to_devices serving (JStr "reboot") Hr)
           "device_001" 0 eq_refl).
Defined.

(** ** What was sent stays sent *)

Lemma sentTo_onMessage_prefix deviceId message t1 t2 s h :
  sentTo h s `prefix_of` sentTo h (onMessage deviceId message t1 t2 s).
Proof.
  unfold onMessage. destruct message as [data|]; [|done]. cbv zeta.
  destruct (member data "type") as [tag|]; [|done].
  destruct (isSensorData tag); [|done].
  destruct (member data "data") as [fields|]; [|done].
  rewrite sentTo_broadcast. by apply prefix_app_r.
Qed.

Lemma sentTo_control_prefix s deviceId command v t1 t2 h :
  sentTo h s `prefix_of` sentTo h (control deviceId command v t1 t2 s).2.
Proof.
  unfold control. cbv zeta.
  destruct (converts v); cbn [negb]; [|done].
  destruct (iotDevices _ !! deviceId) as [ws|]; [|done].
  destruct (isOpen _ _); [|done].
  assert (Hsend : sentTo h s `prefix_of`
            sentTo h (send ws (commandMessage command v t1)
                        (log (LogWebCommand deviceId command v) s))).
  { rewrite sentTo_send. by apply prefix_app_r. }
  destruct (hasOwnProperty _ _) as [[]|]; cbn [snd]; [| |exact Hsend].
  - rewrite sentTo_broadcast. apply prefix_app_r. exact Hsend.
  - rewrite sentTo_broadcast. apply prefix_app_r. exact Hsend.
Qed.

Lemma sentTo_step_prefix ev s h :
  enabled ev s = true ->
  sentTo h s `prefix_of` sentTo h (step ev s).
Proof.
  intros Hen.
  destruct ev as [ws ct did cid now|ws m t1 t2|ws|ws t1 t2|d c v t1 t2];
    simpl in Hen |- *.
  - apply bool_decide_eq_true in Hen.
    destruct (decide (ws = h)) as [->|Hne].
    + unfold sentTo at 1. rewrite Hen. apply prefix_nil.
    + unfold sentTo. rewrite sockets_onConnection_ne by done. simpl.
      by rewrite lookup_insert_ne.
  - destruct (listenersOf ws s); try done. apply sentTo_onMessage_prefix.
  - unfold sentTo; simpl. destruct (decide (ws = h)) as [->|Hne].
    + rewrite lookup_alter_eq. destruct (sockets s !! h); simpl; reflexivity.
    + by rewrite lookup_alter_ne.
  - set (s' := with_sockets _ s).
    assert (Hsent : sentTo h s' = sentTo h s).
    { unfold sentTo, s'; simpl. rewrite lookup_alter. case_decide; [subst|done].
      by destruct (sockets s !! h). }
    destruct (listenersOf ws s).
    + by rewrite Hsent.
    + unfold onDeviceClose. cbv zeta. rewrite sentTo_broadcast.
      apply prefix_app_r. by rewrite <- Hsent.
    + unfold onWebClose. by rewrite <- Hsent.
  - apply sentTo_control_prefix.
Qed.

(** What was sent stays sent, in order: along any run of events the
    frames sent to a socket so far are a prefix of the frames sent to it
    later; the server only ever appends. *)
Theorem sent_frames_persist evs s h :
  admissible evs s = true ->
  sentTo h s `prefix_of` sentTo h (run evs s).
Proof.
  revert s. induction evs as [|ev evs IH]; intros s Hadm; simpl in *; [done |].
  apply andb_true_iff in Hadm as [Hen Hadm].
  etrans; [by apply sentTo_step_prefix | by apply IH].
Qed.

Lemma sent_frames_persist_witness :
  admissible [ledOn] serving = true /\
  sentTo 0 serving `prefix_of` sentTo 0 (run [ledOn] serving).
Proof.
  split; [reflexivity |].
  apply (sent_frames_persist [ledOn] serving 0). reflexivity.
Defined.

(** ** One frame at a time *)

Lemma entriesOf_le_one s h :
  registriesConsistent s -> entriesOf h (webClients s) <= 1.
Proof.
  intros Hinv. destruct (listenersOf h s) as [|d|c] eqn:Hl.
  - rewrite entriesOf_not_dashboard; [lia | done |]. intros c. congruence.
  - rewrite entriesOf_not_dashboard; [lia | done |]. intros c. congruence.
  - destruct (decide (webClients s !! c = Some h)) as [Hc|Hc].
    + by rewrite (entriesOf_dashboard s c h).
    + rewrite entriesOf_none; [lia |]. intros c' Hc'.
      destruct Hinv as [_ Hw]. pose proof (Hw _ _ Hc') as Hl'.
      rewrite Hl in Hl'. injection Hl' as ->. done.
Qed.

Lemma length_sentTo_broadcast data s h :
  registriesConsistent s ->
  length (sentTo h (broadcastToWebClients data s))
  <= length (sentTo h s) + entriesOf h (webClients s).
Proof.
  intros Hinv. rewrite sentTo_broadcast, length_app.
  destruct (isOpen _ _); simpl; [rewrite length_replicate|]; lia.
Qed.

Lemma length_sentTo_control s deviceId command v t1 t2 h :
  registriesConsistent s ->
  length (sentTo h (control deviceId command v t1 t2 s).2)
  <= S (length (sentTo h s)).
Proof.
  intros Hinv. unfold control. cbv zeta.
  destruct (converts v); cbn [negb snd]; [|lia].
  change (iotDevices (log _ s)) with (iotDevices s).
  destruct (iotDevices s !! deviceId) as [ws|] eqn:Hdev;
    [|cbn [snd]; change (sentTo h (log ?l s)) with (sentTo h s); lia].
  destruct (isOpen _ _);
    [|cbn [snd]; change (sentTo h (log ?l s)) with (sentTo h s); lia].
  set (s1 := send ws _ _).
  assert (Hinv1 : forall o, registriesConsistent (with_deviceStates o s1)).
  { intros o. destruct Hinv as [Hd Hw]. split.
    - intros d x Hx. unfold s1.
      change (listenersOf x (send ws (commandMessage command v t1)
                (log (LogWebCommand deviceId command v) s)) = DeviceListeners d).
      rewrite listenersOf_send. by apply Hd.
    - intros c x Hx. unfold s1.
      change (listenersOf x (send ws (commandMessage command v t1)
                (log (LogWebCommand deviceId command v) s)) = WebListeners c).
      rewrite listenersOf_send. by apply Hw. }
  assert (Hs1 : sentTo h s1
                = (sentTo h s ++ if bool_decide (ws = h /\ is_Some (sockets s !! h))
                                 then [commandMessage command v t1] else [])%list).
  { unfold s1. by rewrite sentTo_send. }
  assert (Hcount : length (sentTo h s1) + entriesOf h (webClients s)
                   <= S (length (sentTo h s))).
  { rewrite Hs1, length_app. case_bool_decide as Hws; simpl.
    - destruct Hws as [-> _].
      rewrite entriesOf_not_dashboard; [lia | done |].
      intros c. destruct Hinv as [Hd _]. rewrite (Hd _ _ Hdev). discriminate.
    - pose proof (entriesOf_le_one s h Hinv). lia. }
  assert (Hlen1 : length (sentTo h s1) <= S (length (sentTo h s))) by lia.
  destruct (hasOwnProperty _ _) as [[]|]; cbn [snd]; [| |exact Hlen1].
  - etrans; [apply (length_sentTo_broadcast _ _ h (Hinv1 _)) |]. exact Hcount.
  - etrans; [apply (length_sentTo_broadcast _ s1 h (Hinv1 (deviceStates s1))) |].
    exact Hcount.
Qed.

Lemma sentTo_log h l s : sentTo h (log l s) = sentTo h s.
Proof. reflexivity. Qed.

(** X18: no event sends two frames to the same connection: in every
    reachable state, the callback of one event (a connection, an inbound
    frame, a close, a command) adds at most one frame to what was sent to
    any socket. *)
Theorem one_frame_per_event ev s h :
  reachable s ->
  enabled ev s = true ->
  length (sentTo h (step ev s)) <= S (length (sentTo h s)).
Proof.
  intros Hs Hen. pose proof (reachable_consistent s Hs) as Hinv.
  destruct (sentTo_step_prefix ev s h Hen) as [extra Hextra].
  destruct ev as [ws ct did cid now|ws m t1 t2|ws|ws t1 t2|d c v t1 t2].
  - simpl in Hen. apply bool_decide_eq_true in Hen.
    destruct (decide (ws = h)) as [->|Hne].
    + cbn [step]. unfold sentTo, onConnection, acceptDevice, acceptWeb, reject,
        attach, send.
      repeat case_match; simpl in *;
        rewrite ?lookup_alter_eq, ?lookup_insert_eq in *; simplify_eq/=; lia.
    + cbn [step]. unfold sentTo. rewrite sockets_onConnection_ne by done.
      simpl. rewrite lookup_insert_ne by done. lia.
  - cbn [step]. destruct (listenersOf ws s); try lia.
    unfold onMessage. destruct m as [data|]; [|rewrite sentTo_log; lia].
    cbv zeta.
    destruct (member data "type") as [tag|]; [|rewrite !sentTo_log; lia].
    destruct (isSensorData tag); [|rewrite !sentTo_log; lia].
    destruct (member data "data") as [fields|]; [|rewrite !sentTo_log; lia].
    etrans; [apply length_sentTo_broadcast; exact Hinv |].
    pose proof (entriesOf_le_one s h Hinv).
    change (sentTo h (with_deviceStates ?o (log ?l s))) with (sentTo h s).
    change (webClients (with_deviceStates ?o (log ?l s))) with (webClients s).
    lia.
  - cbn [step]. unfold sentTo; simpl. destruct (decide (ws = h)) as [->|Hne].
    + rewrite lookup_alter_eq. destruct (sockets s !! h); simpl; lia.
    + rewrite lookup_alter_ne by done. lia.
  - cbn [step]. set (s' := with_sockets _ s).
    assert (Hsent : sentTo h s' = sentTo h s).
    { unfold sentTo, s'; simpl. destruct (decide (ws = h)) as [->|Hne].
      - rewrite lookup_alter_eq. by destruct (sockets s !! h).
      - by rewrite lookup_alter_ne. }
    assert (Hinv' : forall l, registriesConsistent
                      (with_registeredDevices l s')).
    { intros l. destruct Hinv as [Hd Hw]. split.
      - intros k x Hx. unfold s'.
        change (listenersOf x (with_sockets
                  (alter (with_readyState CLOSED) ws (sockets s)) s)
                = DeviceListeners k).
        rewrite listenersOf_alter_readyState. by apply Hd.
      - intros k x Hx. unfold s'.
        change (listenersOf x (with_sockets
                  (alter (with_readyState CLOSED) ws (sockets s)) s)
                = WebListeners k).
        rewrite listenersOf_alter_readyState. by apply Hw. }
    destruct (listenersOf ws s) as [|deviceId|clientId].
    + rewrite Hsent. lia.
    + unfold onDeviceClose. cbv zeta.
      rewrite sentTo_broadcast, length_app.
      change (sentTo h (with_registeredDevices ?l (with_iotDevices ?m (log ?x s'))))
        with (sentTo h s').
      change (webClients (with_registeredDevices ?l (with_iotDevices ?m (log ?x s'))))
        with (webClients s).
      rewrite Hsent. pose proof (entriesOf_le_one s h Hinv).
      destruct (isOpen _ _); simpl; [rewrite length_replicate|]; lia.
    + unfold onWebClose. change (sentTo h (with_webClients ?m (log ?x s')))
        with (sentTo h s'). rewrite Hsent. lia.
  - cbn [step]. by apply length_sentTo_control.
Qed.

Lemma one_frame_per_event_witness :
  reachable serving /\
  length (sentTo 1 (step ledOn serving)) <= S (length (sentTo 1 serving)).
Proof.
  assert (Hr : reachable serving).
  { apply (reachable_run [kitchenConnects; dashboardConnects] started);
      [apply reachable_initial | reflexivity]. }
  split; [exact Hr |].
  apply (one_frame_per_event ledOn serving 1 Hr). reflexivity.
Defined.

(** ** Reports whose data is an array *)

Lemma pretty_N_go_head (c : ascii) x s :
  (forall n, pretty_N_char n ≠ c) ->
  (forall s', s ≠ String c s') ->
  forall s', pretty_N_go x s ≠ String c s'.
Proof.
  intros Hc. revert s. induction (N.lt_wf_0 x) as [x _ IH]; intros s Hs.
  assert (x = 0 \/ 0 < x)%N as [->|Hpos] by lia.
  - by rewrite pretty_N_go_0.
  - rewrite pretty_N_go_step by done. apply IH.
    + by apply N.div_lt.
    + intros s' [= Hch _]. by apply (Hc (x `mod` 10)%N).
Qed.

Lemma pretty_nat_head (c : ascii) (i : nat) s' :
  (forall n, pretty_N_char n ≠ c) -> pretty i ≠ String c s'.
Proof.
  intros Hc. unfold pretty, pretty_nat, pretty, pretty_N.
  case_decide.
  - intros [= Hch _]. by apply (Hc 0%N).
  - by apply pretty_N_go_head.
Qed.

Lemma not_digit_underscore n : pretty_N_char n ≠ "_"%char.
Proof. unfold pretty_N_char. by repeat case_match. Qed.

Lemma not_digit_l n : pretty_N_char n ≠ "l"%char.
Proof. unfold pretty_N_char. by repeat case_match. Qed.

Lemma indexed_lookup {A} (f : A -> value) (l : list A) i x :
  l !! i = Some x -> indexed f l !! pretty i = Some (f x).
Proof.
  intros Hi. unfold indexed. apply elem_of_list_to_map_1.
  - rewrite fmap_imap.
    rewrite (imap_ext _ (fun j _ => pretty j)) by done.
    rewrite imap_seq_0. apply NoDup_fmap; [apply _ | apply NoDup_seq].
  - by apply (elem_of_lookup_imap_2 (fun j y => (pretty j, f y))).
Qed.

(** X19: a report whose [data] is an array is merged element by element:
    [Object.assign] copies each element under the decimal name of its index,
    so after [{type:"sensorData", data:[v0, v1, ...]}] the snapshot has the
    fields ["0"], ["1"], ... holding the elements. *)
Theorem array_report_spreads s ws deviceId props elems t1 t2 i v :
  listenersOf ws s = DeviceListeners deviceId ->
  props !! "type" = Some (JStr "sensorData") ->
  props !! "data" = Some (JArr elems) ->
  elems !! i = Some v ->
  getSnapshot (step (Message ws (Some (JObj props)) t1 t2) s) !! pretty i
  = Some v.
Proof.
  intros Hl Htype Hdata Hi.
  rewrite (step_message_device _ _ deviceId) by done.
  rewrite (onMessage_sensorData _ _ _ (Some (JArr elems)))
    by (simpl; by rewrite ?Htype, ?Hdata).
  change (own (merge (Some (JArr elems)) t1 (deviceStates s)) !! pretty i
          = Some v).
  rewrite own_merge_ne.
  - cbn [own_enumerable]. rewrite lookup_union.
    rewrite (indexed_lookup Datatypes.id elems i v Hi). simpl.
    by destruct (own (deviceStates s) !! pretty i).
  - apply pretty_nat_head, not_digit_underscore.
  - apply pretty_nat_head, not_digit_l.
Qed.

Lemma array_report_spreads_witness :
  listenersOf 0 serving = DeviceListeners "device_001" /\
  getSnapshot
    (step (Message 0
             (Some (JObj (<["type" := JStr "sensorData"]>
                         (<["data" := JArr [int 21; int 22]]> ∅))))
             "t1" "t2") serving) !! "1"
  = Some (int 22).
Proof.
  split; [reflexivity |].
  apply (array_report_spreads serving 0 "device_001"
           (<["type" := JStr "sensorData"]>
              (<["data" := JArr [int 21; int 22]]> ∅))
           [int 21; int 22] "t1" "t2" 1 (int 22));
    reflexivity.
Defined.

(** ** The close of a device connection, and commands, in general *)

Lemma step_close_device s ws deviceId t1 t2 :
  listenersOf ws s = DeviceListeners deviceId ->
  step (Close ws t1 t2) s
  = onDeviceClose deviceId t1 t2
      (with_sockets (alter (with_readyState CLOSED) ws (sockets s)) s).
Proof. intros Hl. simpl. by rewrite Hl. Qed.

(** X20: the ['close'] of a device connection, whenever it happens: its
    identifier is removed from [iotDevices] (whichever connection the entry
    held) and the socket is [CLOSED]; the record found under the identifier,
    if there is one, has [online = false] and [lastSeen] the first clock
    reading afterwards, with its [id], [name], [type] and [location] as
    before, and the records of other identifiers are untouched; every open
    dashboard of the registry is sent exactly one frame
    [{type: "deviceDisconnected", deviceId, timestamp}] with the identifier
    and the second clock reading, and nobody else is sent anything; the
    shared state and [webClients] are as before. *)
Theorem device_close s ws deviceId t1 t2 :
  reachable s ->
  listenersOf ws s = DeviceListeners deviceId ->
  enabled (Close ws t1 t2) s = true ->
  let s' := step (Close ws t1 t2) s in
  iotDevices s' = delete deviceId (iotDevices s) /\
  readyStateOf ws s' = Some CLOSED /\
  (forall d, find deviceId (registeredDevices s) = Some d ->
     find deviceId (registeredDevices s')
     = Some {| id := id d; name := name d; type := type d;
               location := location d;
               online := false; lastSeen := Some t1 |}) /\
  (find deviceId (registeredDevices s) = None ->
     registeredDevices s' = registeredDevices s) /\
  (forall other, other ≠ deviceId ->
     find other (registeredDevices s') = find other (registeredDevices s)) /\
  (forall c h, webClients s !! c = Some h ->
     sentTo h s'
     = (sentTo h s ++
        if isOpen h (sockets s)
        then [JObj (<["type" := JStr "deviceDisconnected"]>
                   (<["deviceId" := JStr deviceId]>
                   (<["timestamp" := JStr t2]> ∅)))]
        else [])%list) /\
  (forall h, (forall c, webClients s !! c ≠ Some h) -> sentTo h s' = sentTo h s) /\
  deviceStates s' = deviceStates s /\
  webClients s' = webClients s.
Proof.
  intros Hs Hl Hen. cbv zeta. pose proof (reachable_consistent s Hs) as Hinv.
  rewrite (step_close_device _ _ deviceId) by done.
  unfold onDeviceClose. cbv zeta.
  set (x := with_registeredDevices _ _).
  assert (Hreg : registeredDevices (broadcastToWebClients
                                      (deviceDisconnected deviceId t2) x)
                 = updateStatus deviceId false t1 (registeredDevices s))
    by done.
  assert (Hsent : forall h, sentTo h x = sentTo h s).
  { intros h. unfold sentTo, x; simpl. destruct (decide (ws = h)) as [->|Hne].
    - rewrite lookup_alter_eq. by destruct (sockets s !! h).
    - by rewrite lookup_alter_ne. }
  assert (Hex : is_Some (sockets s !! ws)).
  { apply listenersOf_is_Some. by rewrite Hl. }
  split; [done |]. split.
  { rewrite readyStateOf_broadcast. unfold readyStateOf, x; simpl.
    rewrite lookup_alter_eq. by destruct Hex as [sk ->]. }
  split.
  { intros d Hd. rewrite Hreg. exact (find_updateStatus _ _ _ _ _ Hd). }
  split.
  { intros Hnone. rewrite Hreg. by apply updateStatus_unknown. }
  split.
  { intros other Hother. rewrite Hreg. by apply find_updateStatus_ne. }
  split; [|split; [|done]].
  - intros c h Hc.
    assert (Hne : ws ≠ h).
    { intros ->. destruct Hinv as [_ Hw]. apply Hw in Hc. congruence. }
    rewrite (broadcast_unique _ x c h).
    + rewrite Hsent. unfold isOpen, x; simpl. by rewrite lookup_alter_ne.
    + done.
    + intros c' Hc'. by apply (dashboard_unique s c c' h).
  - intros h Hno. rewrite broadcast_other by done. apply Hsent.
Qed.

Lemma device_close_witness :
  let s' := step (Close 0 "2024-05-01T10:00:06.000Z"
                          "2024-05-01T10:00:06.001Z") serving in
  reachable serving /\
  listenersOf 0 serving = DeviceListeners "device_001" /\
  iotDevices s' !! "device_001" = None /\
  find "device_001" (registeredDevices s')
  = Some {| id := "device_001"; name := "Kitchen Sensor"; type := "sensor";
            location := "Kitchen"; online := false;
            lastSeen := Some "2024-05-01T10:00:06.000Z" |} /\
  sentTo 1 s'
  = (sentTo 1 serving ++
     [JObj (<["type" := JStr "deviceDisconnected"]>
           (<["deviceId" := JStr "device_001"]>
           (<["timestamp" := JStr "2024-05-01T10:00:06.001Z"]> ∅)))])%list.
Proof.
  cbv zeta.
  assert (Hr : reachable serving).
  { apply (reachable_run [kitchenConnects; dashboardConnects] started);
      [apply reachable_initial | reflexivity]. }
  destruct (device_close serving 0 "device_001" "2024-05-01T10:00:06.000Z"
              "2024-05-01T10:00:06.001Z" Hr eq_refl eq_refl)
    as (Hgone & _ & Hrecord & _ & _ & Hsent & _).
  split; [exact Hr |]. split; [reflexivity |].
  split; [rewrite Hgone; reflexivity |].
  split; [exact (Hrecord _ eq_refl) |].
  exact (Hsent "k3x9q" 1 eq_refl).
Defined.

(** X21: a command, whether it succeeds, fails or throws, never changes who
    is connected: both connection registries, the device registry and the
    [readyState] of every socket are as before. *)
Theorem commands_never_disconnect s deviceId command v t1 t2 :
  let s' := (control deviceId command v t1 t2 s).2 in
  iotDevices s' = iotDevices s /\
  webClients s' = webClients s /\
  registeredDevices s' = registeredDevices s /\
  (forall h, readyStateOf h s' = readyStateOf h s).
Proof.
  cbv zeta.
  destruct (control_registries deviceId command v t1 t2 s) as (H1 & H2 & H3).
  repeat split; try done. intros h. apply control_readyStateOf.
Qed.
